(** * newRag: the retrieval-augmented chat script of [main.py]

    A shallow embedding of the Streamlit script: the two MongoDB
    collections, the per-connection session state, password hashing,
    registration and login, the retrieval query and the handling of a
    submitted prompt.  One run of the script is a computation in a small
    state-and-exception monad over the [World] the script can touch.

    The start-up part of the script (environment variables, connection,
    creation of the text index, lines 10 to 62) is not modelled: a run
    starts at line 81 with both collections reachable, so that every
    store operation returns. *)

From Stdlib Require Import ZArith List String Ascii Bool Lia Arith.
From Stdlib Require Import Permutation Sorted Finite.
Import ListNotations.
Local Open Scope string_scope.
Local Open Scope list_scope.
Local Open Scope Z_scope.

(** ** hashlib.sha256

    [hashlib.sha256(data).hexdigest()] after FIPS 180-4.  Words are
    integers reduced modulo 2^32 after every addition and left shift. *)
Module SHA256.

Definition wrap32 (x : Z) : Z := x mod 2 ^ 32.
Definition add32 (x y : Z) : Z := wrap32 (x + y).
Definition rotr (n x : Z) : Z :=
  Z.lor (Z.shiftr x n) (wrap32 (Z.shiftl x (32 - n))).
Definition not32 (x : Z) : Z := Z.lxor x (2 ^ 32 - 1).

Definition Ch (x y z : Z) : Z := Z.lxor (Z.land x y) (Z.land (not32 x) z).
Definition Maj (x y z : Z) : Z :=
  Z.lxor (Z.lxor (Z.land x y) (Z.land x z)) (Z.land y z).
Definition bsig0 (x : Z) : Z := Z.lxor (Z.lxor (rotr 2 x) (rotr 13 x)) (rotr 22 x).
Definition bsig1 (x : Z) : Z := Z.lxor (Z.lxor (rotr 6 x) (rotr 11 x)) (rotr 25 x).
Definition ssig0 (x : Z) : Z := Z.lxor (Z.lxor (rotr 7 x) (rotr 18 x)) (Z.shiftr x 3).
Definition ssig1 (x : Z) : Z := Z.lxor (Z.lxor (rotr 17 x) (rotr 19 x)) (Z.shiftr x 10).

(** The round constants are the first 32 bits of the fractional parts of
    the cube roots of the first 64 primes, the initial hash value those of
    the square roots of the first 8 (FIPS 180-4, 4.2.2 and 5.3.3). *)
Definition is_prime (n : Z) : bool :=
  (1 <? n) && forallb (fun d => negb (n mod (Z.of_nat d) =? 0)) (seq 2 (Z.to_nat n - 2)).

Definition primes_below (n : nat) : list Z :=
  filter is_prime (map Z.of_nat (seq 0 n)).

Fixpoint cube_root_bits (bits : nat) (n r : Z) : Z :=
  match bits with
  | O => r
  | S b =>
      let r' := r + 2 ^ Z.of_nat b in
      cube_root_bits b n (if r' * r' * r' <=? n then r' else r)
  end.

Definition frac_cbrt32 (p : Z) : Z := wrap32 (cube_root_bits 40 (p * 2 ^ 96) 0).
Definition frac_sqrt32 (p : Z) : Z := wrap32 (Z.sqrt (p * 2 ^ 64)).

Definition K : list Z := Eval vm_compute in map frac_cbrt32 (primes_below 312).
Definition H0 : list Z := Eval vm_compute in map frac_sqrt32 (primes_below 20).

(** The eight working variables a..h, also the intermediate hash value. *)
Record hash8 : Type := mkHash8 {
  va : Z; vb : Z; vc : Z; vd : Z; ve : Z; vf : Z; vg : Z; vh : Z
}.

Definition initial_hash : hash8 :=
  mkHash8 (nth 0 H0 0) (nth 1 H0 0) (nth 2 H0 0) (nth 3 H0 0)
          (nth 4 H0 0) (nth 5 H0 0) (nth 6 H0 0) (nth 7 H0 0).

(** Padding: a 1 bit, zero bits up to 56 modulo 64 bytes, then the bit
    length as a 64-bit big-endian integer. *)
Fixpoint be_bytes (n : nat) (x : Z) : list Z :=
  match n with
  | O => []
  | S m => Z.land (Z.shiftr x (8 * Z.of_nat m)) 255 :: be_bytes m x
  end.

Definition pad (msg : list Z) : list Z :=
  let len := Z.of_nat (List.length msg) in
  msg ++ [128] ++ repeat 0 (Z.to_nat ((55 - len) mod 64)) ++ be_bytes 8 (8 * len).

Fixpoint be_words (n : nat) (bs : list Z) : list Z :=
  match n, bs with
  | S m, b0 :: b1 :: b2 :: b3 :: rest =>
      (((b0 * 256 + b1) * 256 + b2) * 256 + b3) :: be_words m rest
  | _, _ => []
  end.

(** Message schedule: W_t for t = 16..63 appended to the 16 block words. *)
Fixpoint extend (n : nat) (w : list Z) : list Z :=
  match n with
  | O => w
  | S m =>
      let t := List.length w in
      let x := add32 (add32 (ssig1 (nth (t - 2) w 0)) (nth (t - 7) w 0))
                     (add32 (ssig0 (nth (t - 15) w 0)) (nth (t - 16) w 0)) in
      extend m (w ++ [x])
  end.

Definition round (s : hash8) (kw : Z * Z) : hash8 :=
  let t1 := add32 (add32 (add32 (vh s) (bsig1 (ve s))) (Ch (ve s) (vf s) (vg s)))
                  (add32 (fst kw) (snd kw)) in
  let t2 := add32 (bsig0 (va s)) (Maj (va s) (vb s) (vc s)) in
  mkHash8 (add32 t1 t2) (va s) (vb s) (vc s) (add32 (vd s) t1) (ve s) (vf s) (vg s).

Definition compress (h : hash8) (block : list Z) : hash8 :=
  let w := extend 48 (be_words 16 block) in
  let s := fold_left round (combine K w) h in
  mkHash8 (add32 (va h) (va s)) (add32 (vb h) (vb s)) (add32 (vc h) (vc s))
          (add32 (vd h) (vd s)) (add32 (ve h) (ve s)) (add32 (vf h) (vf s))
          (add32 (vg h) (vg s)) (add32 (vh h) (vh s)).

Fixpoint blocks (n : nat) (h : hash8) (bs : list Z) : hash8 :=
  match n with
  | O => h
  | S m => blocks m (compress h (firstn 64 bs)) (skipn 64 bs)
  end.

Definition digest (msg : list Z) : hash8 :=
  let p := pad msg in
  blocks (List.length p / 64) initial_hash p.

(** hexdigest: lower-case hexadecimal, most significant nibble first. *)
Definition hexchars : list ascii :=
  list_ascii_of_string "0123456789abcdef".

Definition nibble (w k : Z) : ascii :=
  nth (Z.to_nat (Z.land (Z.shiftr w (4 * k)) 15)) hexchars "0"%char.

Definition hex8 (w : Z) (tail : string) : string :=
  String (nibble w 7) (String (nibble w 6) (String (nibble w 5) (String (nibble w 4)
  (String (nibble w 3) (String (nibble w 2) (String (nibble w 1) (String (nibble w 0)
  tail))))))).

Definition hex_of_hash (h : hash8) : string :=
  hex8 (va h) (hex8 (vb h) (hex8 (vc h) (hex8 (vd h)
  (hex8 (ve h) (hex8 (vf h) (hex8 (vg h) (hex8 (vh h) ""))))))).

Definition hexdigest (msg : list Z) : string := hex_of_hash (digest msg).

End SHA256.

(** A Python [str] is represented by its UTF-8 encoding, one [ascii] per
    byte, so [str.encode()] only changes the type of the bytes. *)
Definition encode (s : string) : list Z :=
  map (fun c => Z.of_N (N_of_ascii c)) (list_ascii_of_string s).

(** [hash_password], main.py line 65. *)
Definition hash_password (password : string) : string :=
  SHA256.hexdigest (encode password).


(** ** Documents, session state and the world of one script run *)

(** A document of [db.chat_history], as [store_message] builds it.  The
    username is whatever the session holds, [None] included. *)
Module ChatDoc.
Record t : Type := mk {
  role : string;
  text : string;
  timestamp : Z;
  username : option string
}.
End ChatDoc.

(** A document of [db.users], as [register_user] builds it. *)
Module UserDoc.
Record t : Type := mk {
  username : string;
  password : string
}.
End UserDoc.

(** An entry of [st.session_state.messages]; the key ["retrieved"] is
    present on the debug entry only. *)
Module Turn.
Record t : Type := mk {
  role : string;
  text : string;
  retrieved : option (list string)
}.
End Turn.

(** The chat handle returned by [model.start_chat(history=[])], observed
    through the prompts that were passed to its [send_message], oldest
    first. *)
Record ChatSession : Type := mkChat { sent : list string }.

(** [st.session_state]: a key that was never assigned is [None]. *)
Record SessionState : Type := mkSession {
  logged_in : option bool;
  username : option string;
  chat_session : option ChatSession;
  messages : option (list Turn.t)
}.

Definition fresh_session : SessionState := mkSession None None None None.

(** What a run renders. *)
Inductive Output : Type :=
| sidebar_title (s : string)
| sidebar_error (s : string)
| sidebar_success (s : string)
| sidebar_write (s : string)
| sidebar_expander (ts : Z) (role body : string)
| page_title (s : string)
| bubble_you (body : string)
| bubble_assistant (body : string)
| bubble_retrieved (texts : list string)
| page_warning (s : string).

Record World : Type := mkWorld {
  collection : list ChatDoc.t;
  user_collection : list UserDoc.t;
  session_state : SessionState;
  clock_reads : nat;
  screen : list Output
}.

(** The state of the widgets in one run. *)
Record Widgets : Type := mkWidgets {
  register : bool;
  register_username : string;
  register_password : string;
  button_Register : bool;
  login_username : string;
  login_password : string;
  button_Login : bool;
  button_Logout : bool;
  user_prompt : string
}.

Definition idle : Widgets := mkWidgets false "" "" false "" "" false false "".

(** What the script does not decide: the text-search predicate of the
    store ([text_match query text]), the order in which the server hands
    the matching documents to its sort stage, the reply of the hosted
    model to a prompt given the prompts sent before ([inr] carries the
    description of the exception raised), and the readings of
    [datetime.now()], in microseconds.

    The script sorts on ["timestamp"] alone.  A MongoDB sort on a field
    with duplicate values may return the documents that share a value in
    any order; [natural_order] is that freedom: the sort stage is a
    stable sort of whatever arrangement of the matches the server
    produced. *)
Record Env : Type := mkEnv {
  text_match : string -> string -> bool;
  natural_order : list ChatDoc.t -> list ChatDoc.t;
  model_reply : list string -> string -> string + string;
  clock : nat -> Z
}.

(** ** Exceptions and the monad of a run *)

Inductive exn : Type :=
| Error (description : string)   (* an instance of [Exception] *)
| RerunException                 (* raised by [st.experimental_rerun] *)
| StopException.                 (* raised by [st.stop] *)

Inductive result (A : Type) : Type :=
| Returned (a : A)
| Raised (e : exn).
Arguments Returned {A} a.
Arguments Raised {A} e.

Definition M (A : Type) : Type := World -> result A * World.

Definition ret {A} (a : A) : M A := fun w => (Returned a, w).

Definition bind {A B} (c : M A) (k : A -> M B) : M B :=
  fun w =>
    match c w with
    | (Returned a, w') => k a w'
    | (Raised e, w') => (Raised e, w')
    end.

Definition raise {A} (e : exn) : M A := fun w => (Raised e, w).

(** [try: body  except Exception as e: handler(str(e))].  The control
    exceptions of the framework do not derive from [Exception]. *)
Definition try_except {A} (body : M A) (handler : string -> M A) : M A :=
  fun w =>
    match body w with
    | (Raised (Error d), w') => handler d w'
    | r => r
    end.

Declare Scope run_scope.
Delimit Scope run_scope with run.
Notation "x <- c ;; k" := (bind c (fun x => k))
  (at level 61, c at next level, right associativity) : run_scope.
Notation "c ;; k" := (bind c (fun _ => k))
  (at level 61, right associativity) : run_scope.
Local Open Scope run_scope.

Definition when (b : bool) (c : M unit) : M unit := if b then c else ret tt.

Fixpoint for_each {A} (l : list A) (body : A -> M unit) : M unit :=
  match l with
  | [] => ret tt
  | x :: l' => body x ;; for_each l' body
  end.

(** ** Primitives: session state, collections, clock, rendering *)

Definition get_world : M World := fun w => (Returned w, w).

Definition update_session (f : SessionState -> SessionState) : M unit :=
  fun w => (Returned tt,
            mkWorld (collection w) (user_collection w) (f (session_state w))
                    (clock_reads w) (screen w)).

Definition emit (o : Output) : M unit :=
  fun w => (Returned tt,
            mkWorld (collection w) (user_collection w) (session_state w)
                    (clock_reads w) (screen w ++ [o])).

(** Reading [st.session_state.<key>]: an absent key raises. *)
Definition attr {A} (key : string) (field : SessionState -> option A) : M A :=
  w <- get_world ;;
  match field (session_state w) with
  | Some v => ret v
  | None => raise (Error ("AttributeError: " ++ key)%string)
  end.

Definition set_logged_in (b : bool) : M unit :=
  update_session (fun s => mkSession (Some b) (username s) (chat_session s) (messages s)).
Definition set_username (u : option string) : M unit :=
  update_session (fun s => mkSession (logged_in s) u (chat_session s) (messages s)).
Definition set_chat_session (c : ChatSession) : M unit :=
  update_session (fun s => mkSession (logged_in s) (username s) (Some c) (messages s)).
Definition set_messages (l : list Turn.t) : M unit :=
  update_session (fun s => mkSession (logged_in s) (username s) (chat_session s) (Some l)).

(** Reading [st.session_state.username].  The script assigns this key
    whenever it assigns [logged_in] (lines 82-83, 103-104, 111-112), so it
    is unassigned only in a session state that was not produced by the
    script; the embedding does not tell an unassigned key from the value
    [None] and reads both as [None]. *)
Definition get_username : M (option string) :=
  w <- get_world ;; ret (username (session_state w)).

(** [st.session_state.messages.append(turn)] *)
Definition messages_append (turn : Turn.t) : M unit :=
  l <- attr "messages" messages ;; set_messages (l ++ [turn]).

(** [collection.insert_one] and [user_collection.insert_one]; the store is
    taken to be reachable, so an insert returns. *)
Definition collection_insert_one (d : ChatDoc.t) : M unit :=
  fun w => (Returned tt,
            mkWorld (collection w ++ [d]) (user_collection w) (session_state w)
                    (clock_reads w) (screen w)).

Definition user_collection_insert_one (d : UserDoc.t) : M unit :=
  fun w => (Returned tt,
            mkWorld (collection w) (user_collection w ++ [d]) (session_state w)
                    (clock_reads w) (screen w)).

Definition experimental_rerun {A} : M A := raise RerunException.

Definition option_string_eqb (a b : option string) : bool :=
  match a, b with
  | Some x, Some y => String.eqb x y
  | None, None => true
  | _, _ => false
  end.

(** The filters the script passes to [find], [find_one] and
    [count_documents]. *)
Definition by_username (u : string) (d : UserDoc.t) : bool :=
  String.eqb (UserDoc.username d) u.

Definition by_username_password (u h : string) (d : UserDoc.t) : bool :=
  String.eqb (UserDoc.username d) u && String.eqb (UserDoc.password d) h.

Definition of_user (u : option string) (d : ChatDoc.t) : bool :=
  option_string_eqb (ChatDoc.username d) u.

(** [cursor.sort("timestamp", direction)]: a stable insertion sort of the
    documents in the order the server supplies them. *)
Fixpoint insert_sorted (before : Z -> Z -> bool) (x : ChatDoc.t) (l : list ChatDoc.t)
  : list ChatDoc.t :=
  match l with
  | [] => [x]
  | y :: l' =>
      if before (ChatDoc.timestamp x) (ChatDoc.timestamp y)
      then x :: y :: l'
      else y :: insert_sorted before x l'
  end.

Fixpoint sort_timestamp (before : Z -> Z -> bool) (l : list ChatDoc.t) : list ChatDoc.t :=
  match l with
  | [] => []
  | x :: l' => insert_sorted before x (sort_timestamp before l')
  end.

Definition ascending : Z -> Z -> bool := Z.leb.
Definition descending : Z -> Z -> bool := Z.geb.

(** The date that the store keeps of a [datetime]: BSON dates count
    milliseconds, so the microseconds below the millisecond are dropped
    when the document is written, and the cursor hands back the truncated
    instant. *)
Definition bson_date (microseconds : Z) : Z := 1000 * (microseconds / 1000).

(** [translate_role_for_streamlit], main.py line 123. *)
Definition translate_role_for_streamlit (user_role : string) : string :=
  if String.eqb user_role "model" then "assistant" else user_role.

Definition str_of_username (u : option string) : string :=
  match u with Some s => s | None => "None" end.

(** ** The script *)
Section Script.

Variable E : Env.

(** [datetime.now()]: the next reading of the clock. *)
Definition datetime_now : M Z :=
  fun w => (Returned (clock E (clock_reads w)),
            mkWorld (collection w) (user_collection w) (session_state w)
                    (S (clock_reads w)) (screen w)).

(** [register_user], main.py line 69. *)
Definition register_user (username password : string) : M unit :=
  let hashed_password := hash_password password in
  let user_data := UserDoc.mk username hashed_password in
  user_collection_insert_one user_data.

(** [authenticate_user], main.py line 75. *)
Definition authenticate_user (username password : string) : M bool :=
  let hashed_password := hash_password password in
  w <- get_world ;;
  let user := find (by_username_password username hashed_password) (user_collection w) in
  ret (match user with Some _ => true | None => false end).

(** The sidebar of main.py lines 81 to 113. *)
Definition login_interface (wd : Widgets) : M unit :=
  w0 <- get_world ;;
  when (match logged_in (session_state w0) with None => true | Some _ => false end)
       (set_logged_in false ;; set_username None) ;;
  li <- attr "logged_in" logged_in ;;
  if negb li then
    emit (sidebar_title "User Login") ;;
    if register wd then
      let username := register_username wd in
      let password := register_password wd in
      when (button_Register wd)
        (w <- get_world ;;
         match find (by_username username) (user_collection w) with
         | Some _ => emit (sidebar_error "Username already exists")
         | None =>
             register_user username password ;;
             emit (sidebar_success "Registration successful. Please log in.")
         end)
    else
      let username := login_username wd in
      let password := login_password wd in
      when (button_Login wd)
        (ok <- authenticate_user username password ;;
         if ok then
           set_logged_in true ;;
           set_username (Some username) ;;
           emit (sidebar_success "Login successful.")
         else emit (sidebar_error "Invalid username or password"))
  else
    u <- get_username ;;
    emit (sidebar_write ("Logged in as " ++ str_of_username u)%string) ;;
    when (button_Logout wd)
      (set_logged_in false ;;
       set_username None ;;
       experimental_rerun).

(** main.py lines 116 to 119. *)
Definition init_chat : M unit :=
  w <- get_world ;;
  when (match chat_session (session_state w) with None => true | Some _ => false end)
       (set_chat_session (mkChat [])) ;;
  w' <- get_world ;;
  when (match messages (session_state w') with None => true | Some _ => false end)
       (set_messages []).

(** [store_message], main.py line 128.  The document that reaches the
    collection carries the reading at the precision of the store. *)
Definition store_message (role text : string) : M unit :=
  now <- datetime_now ;;
  u <- get_username ;;
  collection_insert_one (ChatDoc.mk role text (bson_date now) u).

(** The query of [retrieve_relevant_messages]: the documents selected by
    the filter on the username and the text search (the candidates), sorted
    on the timestamp, newest first, of which five are kept. *)
Definition candidates (u : option string) (query : string)
  (coll : list ChatDoc.t) : list ChatDoc.t :=
  filter (fun d => of_user u d && text_match E query (ChatDoc.text d)) coll.

Definition relevant_documents (u : option string) (query : string)
  (coll : list ChatDoc.t) : list ChatDoc.t :=
  firstn 5 (sort_timestamp descending (natural_order E (candidates u query coll))).

(** [retrieve_relevant_messages], main.py line 139. *)
Definition retrieve_relevant_messages (query : string) : M (list string) :=
  u <- get_username ;;
  w <- get_world ;;
  ret (map ChatDoc.text (relevant_documents u query (collection w))).

(** [display_messages], main.py line 145. *)
Definition display_message (msg : Turn.t) : M unit :=
  (if String.eqb (Turn.role msg) "user"
   then emit (bubble_you (Turn.text msg))
   else emit (bubble_assistant (Turn.text msg))) ;;
  match Turn.retrieved msg with
  | Some (r :: rs) => emit (bubble_retrieved (r :: rs))
  | _ => ret tt
  end.

Definition display_messages : M unit :=
  l <- attr "messages" messages ;; for_each l display_message.

(** [st.session_state.chat_session.send_message(prompt)] followed by
    [.text]: the prompt is recorded on the handle, the hosted model
    answers or raises. *)
Definition send_message (prompt : string) : M string :=
  cs <- attr "chat_session" chat_session ;;
  set_chat_session (mkChat (sent cs ++ [prompt])) ;;
  match model_reply E (sent cs) prompt with
  | inl reply => ret reply
  | inr description => raise (Error description)
  end.

(** The body of [if user_prompt:], main.py lines 184 to 212. *)
Definition user_prompt_block (user_prompt : string) : M unit :=
  store_message "user" user_prompt ;;
  messages_append (Turn.mk "user" user_prompt None) ;;
  relevant_messages <- retrieve_relevant_messages user_prompt ;;
  let context := String.concat " " relevant_messages in
  let combined_prompt := (context ++ " " ++ user_prompt)%string in
  messages_append (Turn.mk "system" combined_prompt (Some relevant_messages)) ;;
  response_text <-
    try_except (send_message combined_prompt)
               (fun e => ret ("Error: " ++ e)%string) ;;
  store_message "assistant" response_text ;;
  messages_append (Turn.mk "assistant" response_text None) ;;
  experimental_rerun.

(** The sidebar history of main.py lines 168 to 173. *)
Definition chat_history_sidebar : M unit :=
  emit (sidebar_title "Chat History") ;;
  u <- get_username ;;
  w <- get_world ;;
  when (0 <? Z.of_nat (List.length (filter (of_user u) (collection w))))
    (let chat_history :=
       sort_timestamp ascending (natural_order E (filter (of_user u) (collection w))) in
     for_each chat_history
       (fun message =>
          emit (sidebar_expander (ChatDoc.timestamp message)
                  (translate_role_for_streamlit (ChatDoc.role message))
                  (ChatDoc.text message)))).

(** main.py lines 166 to 214. *)
Definition chat_page (wd : Widgets) : M unit :=
  li <- attr "logged_in" logged_in ;;
  if li then
    chat_history_sidebar ;;
    emit (page_title "Zephyr - ChatBot") ;;   (* the title, without its emoji *)
    display_messages ;;
    when (negb (String.eqb (user_prompt wd) ""))
         (user_prompt_block (user_prompt wd))
  else emit (page_warning "Please log in to use the chat.").

(** One execution of the script, from line 81 on. *)
Definition script (wd : Widgets) : M unit :=
  login_interface wd ;; init_chat ;; chat_page wd.

Definition clear_screen (w : World) : World :=
  mkWorld (collection w) (user_collection w) (session_state w) (clock_reads w) [].

(** One interaction: the script runs on the widget state; when it asks
    for a rerun it runs again at once, with no button pressed and the
    prompt box (whose key changed) empty. *)
Definition interaction (wd : Widgets) (w : World) : result unit * World :=
  match script wd (clear_screen w) with
  | (Raised RerunException, w') => script idle (clear_screen w')
  | r => r
  end.

End Script.

(** ** The deployed system: one store, many browser sessions *)

Record System : Type := mkSystem {
  chat_history : list ChatDoc.t;      (* db["chat_history"] *)
  users : list UserDoc.t;             (* db["users"] *)
  sessions : nat -> SessionState;     (* st.session_state of each connection *)
  now_reads : nat
}.

Definition initial_system : System := mkSystem [] [] (fun _ => fresh_session) 0.

Definition load (sid : nat) (s : System) : World :=
  mkWorld (chat_history s) (users s) (sessions s sid) (now_reads s) [].

Definition save (sid : nat) (w : World) (s : System) : System :=
  mkSystem (collection w) (user_collection w)
           (fun i => if Nat.eqb i sid then session_state w else sessions s i)
           (clock_reads w).

(** The interaction of connection [sid] on the shared store, run to its
    end with no store operation of another connection in between. *)
Definition run_in (E : Env) (sid : nat) (wd : Widgets) (s : System) : result unit * World :=
  interaction E wd (load sid s).

Definition step (E : Env) (sid : nat) (wd : Widgets) (s : System) : System :=
  save sid (snd (run_in E sid wd s)) s.

(** [evolves E s s']: [s'] is reached from [s] by interactions that run
    one after another.  Executions in which the store operations of two
    connections interleave are not among them; the Register handler, whose
    two round trips to the store can be separated by another connection,
    is split further below ([start_Register], [complete_Register]). *)
Inductive evolves (E : Env) (s : System) : System -> Prop :=
| evolves_here : evolves E s s
| evolves_step s' sid wd : evolves E s s' -> evolves E s (step E sid wd s').

Definition reachable (E : Env) (s : System) : Prop := evolves E initial_system s.

(** ** The Register handler, one round trip at a time

    A run that handles the Register button goes to the Credential Store
    twice: the [find_one] of line 93 and then, when that found nothing,
    the [insert_one] of [register_user] (line 72).  The script creates no
    unique index on the username (its only index is the text index of
    line 41) and the connections are served independently of one another,
    so a store operation of another connection can fall between the two
    round trips. *)

(** Lines 81 to 93 in a session that is not logged in, with the Register
    box ticked and the button pressed: up to and including the lookup. *)
Definition Register_lookup (wd : Widgets) : M bool :=
  w0 <- get_world ;;
  when (match logged_in (session_state w0) with None => true | Some _ => false end)
       (set_logged_in false ;; set_username None) ;;
  emit (sidebar_title "User Login") ;;
  w <- get_world ;;
  ret (match find (by_username (register_username wd)) (user_collection w) with
       | Some _ => true
       | None => false
       end).

(** Lines 94 to 97 and the rest of the script, given what the lookup
    found. *)
Definition Register_rest (E : Env) (wd : Widgets) (found : bool) : M unit :=
  (if found then emit (sidebar_error "Username already exists")
   else
     register_user (register_username wd) (register_password wd) ;;
     emit (sidebar_success "Registration successful. Please log in.")) ;;
  init_chat ;;
  chat_page E wd.

(** The two parts as steps of connection [sid] on the shared store. *)
Definition start_Register (sid : nat) (wd : Widgets) (s : System) : bool * System :=
  let (r, w) := Register_lookup wd (load sid s) in
  (match r with Returned found => found | Raised _ => false end, save sid w s).

Definition complete_Register (E : Env) (sid : nat) (wd : Widgets) (found : bool)
  (s : System) : System :=
  save sid (snd (Register_rest E wd found (load sid s))) s.

(** Two connections handle Register at the same time: both lookups come
    before either insert. *)
Definition racing_registrations (E : Env) (sid1 sid2 : nat) (wd1 wd2 : Widgets)
  (s : System) : System :=
  let (found1, s1) := start_Register sid1 wd1 s in
  let (found2, s2) := start_Register sid2 wd2 s1 in
  complete_Register E sid2 wd2 found2 (complete_Register E sid1 wd1 found1 s2).

(** An environment is well formed when the server hands over exactly the
    documents that match, in some order. *)
Definition env_ok (E : Env) : Prop :=
  forall l, Permutation (natural_order E l) l.

Definition newer_or_equal (a b : ChatDoc.t) : Prop :=
  ChatDoc.timestamp b <= ChatDoc.timestamp a.

(** ** Concrete environments and inputs for the worked examples *)

(** A keyword search for the examples: some space-separated word of the
    query is a word of the text.  (The server's search also folds case,
    stems and drops stop words; the examples use none of that.) *)
Fixpoint words_from (cur : string) (s : string) : list string :=
  match s with
  | EmptyString => if String.eqb cur "" then [] else [cur]
  | String c s' =>
      if Ascii.eqb c " "%char
      then (if String.eqb cur "" then words_from "" s' else cur :: words_from "" s')
      else words_from (cur ++ String c "")%string s'
  end.

Definition words (s : string) : list string := words_from "" s.

Definition keyword_match (query text : string) : bool :=
  existsb (fun q => existsb (String.eqb q) (words text)) (words query).

(** A hosted model that echoes the prompt, and one that always fails. *)
Definition echo_model (_ : list string) (prompt : string) : string + string := inl prompt.
Definition failing_model (_ : list string) (_ : string) : string + string :=
  inr "503 service unavailable".

(** A clock read a quarter of a millisecond after each millisecond. *)
Definition ticking (n : nat) : Z := 1000 * Z.of_nat n + 250.

Definition env_echo : Env := mkEnv keyword_match (fun l => l) echo_model ticking.
Definition env_fail : Env := mkEnv keyword_match (fun l => l) failing_model ticking.
(** The same store read by a server that scans the matches backwards. *)
Definition env_echo_rev : Env := mkEnv keyword_match (@rev ChatDoc.t) echo_model ticking.

Definition alice_docs : list ChatDoc.t :=
  [ ChatDoc.mk "user" "cats are great" 10 (Some "alice");
    ChatDoc.mk "user" "dogs are great" 20 (Some "alice");
    ChatDoc.mk "user" "cats rule" 30 (Some "alice");
    ChatDoc.mk "user" "cats of bob" 40 (Some "bob") ].

(** Two of alice's messages carry the same timestamp. *)
Definition tied_docs : list ChatDoc.t :=
  [ ChatDoc.mk "user" "cats first" 10 (Some "alice");
    ChatDoc.mk "assistant" "cats second" 10 (Some "alice") ].

Definition alice_session : SessionState :=
  mkSession (Some true) (Some "alice") (Some (mkChat [])) (Some []).

Definition alice_world (docs : list ChatDoc.t) : World :=
  mkWorld docs [UserDoc.mk "alice" (hash_password "secret")] alice_session 5 [].

Definition ask (prompt : string) : Widgets :=
  mkWidgets false "" "" false "" "" false false prompt.
Definition press_Logout : Widgets :=
  mkWidgets false "" "" false "" "" false true "".
Definition press_Login (u p : string) : Widgets :=
  mkWidgets false "" "" false u p true false "".
Definition press_Register (u p : string) : Widgets :=
  mkWidgets true u p true "" "" false false "".

(** The system after "bob" registered with password "pw1" from connection 0. *)
Definition bob_registered : System :=
  step env_echo 0 (press_Register "bob" "pw1") initial_system.

(** bob logs in on connection 0, asks "hello", then logs out. *)
Definition bob_logged_in : System :=
  step env_echo 0 (press_Login "bob" "pw1") bob_registered.
Definition bob_asked : System :=
  step env_echo 0 (ask "hello") bob_logged_in.
Definition bob_logged_out : System :=
  step env_echo 0 press_Logout bob_asked.

(** Connections 0 and 1 register "bob" at the same time, with the
    passwords "pw1" and "pw2". *)
Definition bob_twice : System :=
  racing_registrations env_echo 0 1
    (press_Register "bob" "pw1") (press_Register "bob" "pw2") initial_system.

(** A clock whose readings are 200 microseconds apart. *)
Definition env_quick : Env :=
  mkEnv keyword_match (fun l => l) echo_model (fun n => 1500 + 200 * Z.of_nat n).

(** The passwords "", "a", "aa", ... *)
Definition a_password (n : nat) : string := string_of_list_ascii (repeat "a"%char n).

(** ** Vocabulary of the statements *)

Definition add_screen (w : World) (out : list Output) : World :=
  mkWorld (collection w) (user_collection w) (session_state w) (clock_reads w)
          (screen w ++ out).

(** What [display_messages] renders for one entry. *)
Definition rendered_turn (msg : Turn.t) : list Output :=
  (if String.eqb (Turn.role msg) "user"
   then [bubble_you (Turn.text msg)]
   else [bubble_assistant (Turn.text msg)])
  ++ match Turn.retrieved msg with
     | Some (r :: rs) => [bubble_retrieved (r :: rs)]
     | _ => []
     end.

(** The sidebar entry of one stored document. *)
Definition history_entry (d : ChatDoc.t) : Output :=
  sidebar_expander (ChatDoc.timestamp d)
    (translate_role_for_streamlit (ChatDoc.role d)) (ChatDoc.text d).

(** The sidebar entries of a user: a direct query of the store, oldest
    first. *)
Definition history_of (E : Env) (u : option string) (coll : list ChatDoc.t)
  : list Output :=
  map history_entry
      (sort_timestamp ascending (natural_order E (filter (of_user u) coll))).

(** The reply text that the submit block goes on with. *)
Definition response_of (outcome : string + string) : string :=
  match outcome with
  | inl reply => reply
  | inr description => ("Error: " ++ description)%string
  end.

Definition or_default {A} (d : A) (o : option A) : A :=
  match o with Some a => a | None => d end.

(** A computation that leaves [db.users] as it found it. *)
Definition keeps_users {A} (c : M A) : Prop :=
  forall w, user_collection (snd (c w)) = user_collection w.

(** The run inserts a User: the session is not logged in, the Register
    box is ticked, the Register button pressed and no User has the name. *)
Definition registers (wd : Widgets) (w : World) : bool :=
  match logged_in (session_state w) with Some true => false | _ => true end
  && register wd && button_Register wd
  && match find (by_username (register_username wd)) (user_collection w) with
     | Some _ => false
     | None => true
     end.

Definition registered_user (wd : Widgets) : UserDoc.t :=
  UserDoc.mk (register_username wd) (hash_password (register_password wd)).

(** All strings of [n] lower-case hexadecimal digits. *)
Fixpoint hex_strings (n : nat) : list string :=
  match n with
  | O => [""]
  | S m => flat_map (fun c => map (String c) (hex_strings m)) SHA256.hexchars
  end.

(** Seven of alice's messages match "cats". *)
Definition cat_doc (n : Z) : ChatDoc.t :=
  ChatDoc.mk "user" "cats again" n (Some "alice").

Definition many_cats : list ChatDoc.t :=
  [cat_doc 3; cat_doc 1; cat_doc 7; cat_doc 5; cat_doc 2; cat_doc 6; cat_doc 4].

(** ** Vocabulary of the further properties *)

(** The run logs the session in: it is not logged in, the Register box
    is not ticked, the Login button is pressed and a User document has
    the username and the digest of the password typed. *)
Definition logs_in (wd : Widgets) (w : World) : bool :=
  match logged_in (session_state w) with Some true => false | _ => true end
  && negb (register wd) && button_Login wd
  && match find (by_username_password (login_username wd)
                   (hash_password (login_password wd))) (user_collection w) with
     | Some _ => true
     | None => false
     end.

(** The run reaches the chat page logged in. *)
Definition chats (wd : Widgets) (w : World) : bool :=
  match logged_in (session_state w) with
  | Some true => negb (button_Logout wd)
  | _ => logs_in wd w
  end.

(** The username the chat page then runs under. *)
Definition chat_user (wd : Widgets) (w : World) : option string :=
  match logged_in (session_state w) with
  | Some true => username (session_state w)
  | _ => Some (login_username wd)
  end.

(** The three things one interaction can do to the store of messages,
    the clock and the session. *)
Inductive interaction_effect (E : Env) (wd : Widgets) (w w' : World) : Prop :=
| effect_logged_out :
    chats wd w = false ->
    collection w' = collection w ->
    clock_reads w' = clock_reads w ->
    session_state w'
    = mkSession (Some false)
        (match logged_in (session_state w) with
         | Some false => username (session_state w)
         | _ => None
         end)
        (Some (or_default (mkChat []) (chat_session (session_state w))))
        (Some (or_default [] (messages (session_state w)))) ->
    interaction_effect E wd w w'
| effect_quiet :
    chats wd w = true ->
    user_prompt wd = "" ->
    collection w' = collection w ->
    clock_reads w' = clock_reads w ->
    session_state w'
    = mkSession (Some true) (chat_user wd w)
        (Some (or_default (mkChat []) (chat_session (session_state w))))
        (Some (or_default [] (messages (session_state w)))) ->
    interaction_effect E wd w w'
| effect_submit :
    chats wd w = true ->
    user_prompt wd <> "" ->
    let p := user_prompt wd in
    let u := chat_user wd w in
    let n := clock_reads w in
    let handle := or_default (mkChat []) (chat_session (session_state w)) in
    let view := or_default [] (messages (session_state w)) in
    let own := ChatDoc.mk "user" p (bson_date (clock E n)) u in
    let rs := map ChatDoc.text (relevant_documents E u p (collection w ++ [own])) in
    let cp := (String.concat " " rs ++ " " ++ p)%string in
    let resp := response_of (model_reply E (sent handle) cp) in
    collection w'
    = collection w ++ [own; ChatDoc.mk "assistant" resp (bson_date (clock E (S n))) u] ->
    clock_reads w' = S (S n) ->
    session_state w'
    = mkSession (Some true) u (Some (mkChat (sent handle ++ [cp])))
        (Some (view ++ [Turn.mk "user" p None;
                        Turn.mk "system" cp (Some rs);
                        Turn.mk "assistant" resp None])) ->
    interaction_effect E wd w w'.

(** A session is consistent with the Credential Store: logged in, it
    carries the username of a User document; otherwise none. *)
Definition session_ok (us : list UserDoc.t) (ss : SessionState) : Prop :=
  match logged_in ss with
  | Some true => exists u, username ss = Some u /\ In u (map UserDoc.username us)
  | _ => username ss = None
  end.

(** A stored Message is attributed: its role is "user" or "assistant" and
    its username that of a User document. *)
Definition attributed (us : list UserDoc.t) (d : ChatDoc.t) : Prop :=
  (ChatDoc.role d = "user" \/ ChatDoc.role d = "assistant") /\
  exists u, ChatDoc.username d = Some u /\ In u (map UserDoc.username us).

(** The view of a session and its handle move together: three entries
    per prompt sent. *)
Definition in_step (ss : SessionState) : Prop :=
  List.length (or_default [] (messages ss))
  = (3 * List.length (sent (or_default (mkChat []) (chat_session ss))))%nat.

(** The prompts the handle received are the texts of the system entries
    of the view. *)
Definition trail_matches (ss : SessionState) : Prop :=
  map Turn.text
      (filter (fun t => String.eqb (Turn.role t) "system") (or_default [] (messages ss)))
  = sent (or_default (mkChat []) (chat_session ss)).

(** What holds of every reachable state. *)
Definition consistent (E : Env) (s : System) : Prop :=
  (forall sid, session_ok (users s) (sessions s sid)) /\
  Forall (attributed (users s)) (chat_history s) /\
  map ChatDoc.timestamp (chat_history s)
  = map (fun i => bson_date (clock E i)) (seq 0 (now_reads s)) /\
  (forall sid, in_step (sessions s sid) /\ trail_matches (sessions s sid)) /\
  Forall (fun d => exists p, UserDoc.password d = hash_password p) (users s).

Definition older_or_equal (a b : ChatDoc.t) : Prop :=
  ChatDoc.timestamp a <= ChatDoc.timestamp b.

Definition strictly_increasing (f : nat -> Z) : Prop :=
  forall i j, (i < j)%nat -> f i < f j.

Definition is_hex_digit (c : ascii) : Prop := In c SHA256.hexchars.

(** * Properties *)

(** ** The sort stage of a cursor *)
Section SortTimestamp.

Variable before : Z -> Z -> bool.

Lemma insert_sorted_perm (x : ChatDoc.t) (l : list ChatDoc.t) :
  Permutation (insert_sorted before x l) (x :: l).
Proof.
  induction l as [|y l IH]; simpl.
  - apply Permutation_refl.
  - destruct (before (ChatDoc.timestamp x) (ChatDoc.timestamp y)).
    + apply Permutation_refl.
    + eapply perm_trans; [apply perm_skip, IH | apply perm_swap].
Qed.

Lemma sort_timestamp_perm (l : list ChatDoc.t) :
  Permutation (sort_timestamp before l) l.
Proof.
  induction l as [|x l IH]; simpl.
  - constructor.
  - eapply perm_trans; [apply insert_sorted_perm | apply perm_skip, IH].
Qed.

End SortTimestamp.

Lemma insert_descending_sorted (x : ChatDoc.t) (l : list ChatDoc.t) :
  StronglySorted newer_or_equal l ->
  StronglySorted newer_or_equal (insert_sorted descending x l).
Proof.
  induction 1 as [|y l Hl IH Hy]; simpl.
  - repeat constructor.
  - unfold descending at 1.
    destruct (Z.geb_spec (ChatDoc.timestamp x) (ChatDoc.timestamp y)) as [Hge|Hlt].
    + constructor.
      * constructor; assumption.
      * constructor; [exact Hge|].
        rewrite Forall_forall in Hy |- *. intros z Hz.
        specialize (Hy z Hz). unfold newer_or_equal in *. lia.
    + constructor; [exact IH|].
      rewrite Forall_forall in Hy |- *. intros z Hz.
      apply (Permutation_in _ (insert_sorted_perm descending x l)) in Hz.
      destruct Hz as [<-|Hz].
      * unfold newer_or_equal. lia.
      * apply Hy, Hz.
Qed.

Lemma sort_descending_sorted (l : list ChatDoc.t) :
  StronglySorted newer_or_equal (sort_timestamp descending l).
Proof.
  induction l as [|x l IH]; simpl.
  - constructor.
  - apply insert_descending_sorted, IH.
Qed.

Lemma in_firstn {A} (n : nat) (l : list A) (x : A) :
  In x (firstn n l) -> In x l.
Proof.
  revert l. induction n as [|n IH]; intros [|y l]; simpl; try tauto.
  intros [H|H]; [now left | right; now apply IH].
Qed.

Lemma firstn_strongly_sorted {A} (R : A -> A -> Prop) (n : nat) (l : list A) :
  StronglySorted R l -> StronglySorted R (firstn n l).
Proof.
  intros H. revert n.
  induction H as [|x l Hl IH Hx]; intros [|n]; simpl; try constructor.
  - apply IH.
  - rewrite Forall_forall in Hx |- *. intros z Hz.
    apply Hx. eapply in_firstn; eauto.
Qed.

(** Two newest-first arrangements of the same documents coincide when no
    two of the documents share a timestamp. *)
Lemma sorted_arrangement_unique (l1 l2 : list ChatDoc.t) :
  Permutation l1 l2 ->
  StronglySorted newer_or_equal l1 ->
  StronglySorted newer_or_equal l2 ->
  NoDup (map ChatDoc.timestamp l1) ->
  l1 = l2.
Proof.
  revert l2. induction l1 as [|a l1 IH]; intros l2 Hp S1 S2 Hnd.
  - apply Permutation_nil in Hp. now subst.
  - destruct l2 as [|b l2].
    + apply Permutation_sym, Permutation_nil in Hp. discriminate.
    + inversion S1 as [|? ? S1' F1]; subst.
      inversion S2 as [|? ? S2' F2]; subst.
      rewrite Forall_forall in F1, F2.
      assert (Hab : a = b).
      { assert (Hb : In b (a :: l1))
          by (eapply Permutation_in; [apply Permutation_sym, Hp | now left]).
        assert (Ha : In a (b :: l2))
          by (eapply Permutation_in; [apply Hp | now left]).
        destruct Hb as [Hb|Hb]; [congruence|].
        destruct Ha as [Ha|Ha]; [congruence|].
        specialize (F1 b Hb). specialize (F2 a Ha).
        unfold newer_or_equal in *.
        assert (Heq : ChatDoc.timestamp a = ChatDoc.timestamp b) by lia.
        simpl in Hnd. inversion Hnd as [|? ? Hnotin _]; subst.
        exfalso. apply Hnotin. rewrite Heq. now apply in_map. }
      subst b. f_equal.
      apply IH; auto.
      * eapply Permutation_cons_inv; eauto.
      * simpl in Hnd. now inversion Hnd.
Qed.

(** ** Running the monad *)

Lemma bind_returned {A B} (c : M A) (k : A -> M B) (w w' : World) (a : A) :
  c w = (Returned a, w') -> bind c k w = k a w'.
Proof. intros H. unfold bind. now rewrite H. Qed.

Lemma bind_raised {A B} (c : M A) (k : A -> M B) (w w' : World) (e : exn) :
  c w = (Raised e, w') -> bind c k w = (Raised e, w').
Proof. intros H. unfold bind. now rewrite H. Qed.

Lemma add_screen_nil (w : World) : add_screen w [] = w.
Proof. destruct w. unfold add_screen. simpl. now rewrite app_nil_r. Qed.

Lemma add_screen_add_screen (w : World) (o1 o2 : list Output) :
  add_screen (add_screen w o1) o2 = add_screen w (o1 ++ o2).
Proof. destruct w. unfold add_screen. simpl. now rewrite app_assoc. Qed.

Lemma for_each_emit {A} (f : A -> Output) (body : A -> M unit) (l : list A) (w : World) :
  (forall x w', body x w' = (Returned tt, add_screen w' [f x])) ->
  for_each l body w = (Returned tt, add_screen w (map f l)).
Proof.
  intros Hbody. revert w. induction l as [|x l IH]; intros w; simpl.
  - now rewrite add_screen_nil.
  - rewrite (bind_returned _ _ _ _ _ (Hbody x w)).
    rewrite IH. now rewrite add_screen_add_screen.
Qed.

Lemma display_message_renders (msg : Turn.t) (w : World) :
  display_message msg w = (Returned tt, add_screen w (rendered_turn msg)).
Proof.
  destruct w, msg as [r t [[|x xs]|]]; unfold display_message, rendered_turn, add_screen;
    simpl; destruct (String.eqb r "user"); unfold bind, emit, ret; simpl;
    rewrite <- ?app_assoc; reflexivity.
Qed.

Lemma for_each_display (l : list Turn.t) (w : World) :
  for_each l display_message w = (Returned tt, add_screen w (flat_map rendered_turn l)).
Proof.
  revert w. induction l as [|x l IH]; intros w; simpl.
  - now rewrite add_screen_nil.
  - rewrite (bind_returned _ _ _ _ _ (display_message_renders x w)).
    rewrite IH. now rewrite add_screen_add_screen.
Qed.

(** ** The parts of the script, run on a given world *)
Ltac run_prims :=
  unfold bind, ret, raise, when, attr, get_world, get_username, emit,
    set_logged_in, set_username, set_chat_session, set_messages,
    update_session, messages_append, collection_insert_one,
    user_collection_insert_one, experimental_rerun, datetime_now,
    add_screen; simpl.

Section Runs.

Variable E : Env.

Lemma login_interface_logged_in wd coll us u cs ms n scr :
  button_Logout wd = false ->
  login_interface wd (mkWorld coll us (mkSession (Some true) u cs ms) n scr)
  = (Returned tt,
     mkWorld coll us (mkSession (Some true) u cs ms) n
       (scr ++ [sidebar_write ("Logged in as " ++ str_of_username u)%string])).
Proof. intros H. unfold login_interface. run_prims. now rewrite H. Qed.

Lemma login_interface_logout wd coll us u cs ms n scr :
  button_Logout wd = true ->
  login_interface wd (mkWorld coll us (mkSession (Some true) u cs ms) n scr)
  = (Raised RerunException,
     mkWorld coll us (mkSession (Some false) None cs ms) n
       (scr ++ [sidebar_write ("Logged in as " ++ str_of_username u)%string])).
Proof. intros H. unfold login_interface. run_prims. now rewrite H. Qed.

Lemma init_chat_run coll us li u cs ms n scr :
  init_chat (mkWorld coll us (mkSession li u cs ms) n scr)
  = (Returned tt,
     mkWorld coll us
       (mkSession li u (Some (or_default (mkChat []) cs)) (Some (or_default [] ms)))
       n scr).
Proof. unfold init_chat. destruct cs, ms; reflexivity. Qed.

Lemma chat_history_sidebar_run (w : World) :
  exists out, chat_history_sidebar E w = (Returned tt, add_screen w out).
Proof.
  unfold chat_history_sidebar.
  destruct w as [coll us ss n scr]. run_prims.
  destruct (0 <? _).
  - rewrite (for_each_emit history_entry) by reflexivity.
    unfold add_screen. simpl.
    rewrite <- app_assoc. eexists. reflexivity.
  - eexists. reflexivity.
Qed.

Lemma chat_history_sidebar_lists_store (w : World) :
  env_ok E ->
  chat_history_sidebar E w
  = (Returned tt,
     add_screen w (sidebar_title "Chat History"
                   :: history_of E (username (session_state w)) (collection w))).
Proof.
  intros Hok. unfold chat_history_sidebar, history_of.
  destruct w as [coll us ss n scr]. run_prims.
  destruct (filter (of_user (username ss)) coll) as [|d l] eqn:Hf.
  - simpl. pose proof (Hok []) as Hp. apply Permutation_sym, Permutation_nil in Hp.
    rewrite Hp. reflexivity.
  - change (0 <? Z.of_nat (List.length (d :: l))) with true. cbv iota.
    rewrite (for_each_emit history_entry) by reflexivity.
    unfold add_screen. simpl.
    now rewrite <- app_assoc.
Qed.

Lemma display_messages_run coll us li u cs ms n scr :
  display_messages (mkWorld coll us (mkSession li u cs (Some ms)) n scr)
  = (Returned tt,
     mkWorld coll us (mkSession li u cs (Some ms)) n (scr ++ flat_map rendered_turn ms)).
Proof. unfold display_messages. run_prims. now rewrite for_each_display. Qed.

Lemma user_prompt_block_run p coll us li u cs ms n scr :
  let d1 := ChatDoc.mk "user" p (bson_date (clock E n)) u in
  let rs := map ChatDoc.text (relevant_documents E u p (coll ++ [d1])) in
  let cp := (String.concat " " rs ++ " " ++ p)%string in
  let resp := response_of (model_reply E (sent cs) cp) in
  user_prompt_block E p (mkWorld coll us (mkSession li u (Some cs) (Some ms)) n scr)
  = (Raised RerunException,
     mkWorld ((coll ++ [d1]) ++ [ChatDoc.mk "assistant" resp (bson_date (clock E (S n))) u]) us
       (mkSession li u (Some (mkChat (sent cs ++ [cp])))
          (Some (((ms ++ [Turn.mk "user" p None])
                  ++ [Turn.mk "system" cp (Some rs)])
                 ++ [Turn.mk "assistant" resp None])))
       (S (S n)) scr).
Proof.
  intros d1 rs cp resp. unfold user_prompt_block, store_message,
    retrieve_relevant_messages, try_except, send_message. run_prims.
  subst resp cp rs d1. simpl.
  destruct (model_reply E (sent cs) _); reflexivity.
Qed.

End Runs.

(** ** One run of the script *)
Section ScriptRuns.

Variable E : Env.

Lemma chat_page_submit wd coll us u cs ms n scr :
  user_prompt wd <> "" ->
  let p := user_prompt wd in
  let d1 := ChatDoc.mk "user" p (bson_date (clock E n)) u in
  let rs := map ChatDoc.text (relevant_documents E u p (coll ++ [d1])) in
  let cp := (String.concat " " rs ++ " " ++ p)%string in
  let resp := response_of (model_reply E (sent cs) cp) in
  exists scr',
    chat_page E wd (mkWorld coll us (mkSession (Some true) u (Some cs) (Some ms)) n scr)
    = (Raised RerunException,
       mkWorld ((coll ++ [d1]) ++ [ChatDoc.mk "assistant" resp (bson_date (clock E (S n))) u]) us
         (mkSession (Some true) u (Some (mkChat (sent cs ++ [cp])))
            (Some (((ms ++ [Turn.mk "user" p None])
                    ++ [Turn.mk "system" cp (Some rs)])
                   ++ [Turn.mk "assistant" resp None])))
         (S (S n)) scr').
Proof.
  intros Hp p d1 rs cp resp. unfold chat_page.
  set (w := mkWorld coll us (mkSession (Some true) u (Some cs) (Some ms)) n scr).
  assert (Hli : attr "logged_in" logged_in w = (Returned true, w)) by reflexivity.
  rewrite (bind_returned _ _ _ _ _ Hli). cbv iota.
  destruct (chat_history_sidebar_run E w) as [out Hout].
  rewrite (bind_returned _ _ _ _ _ Hout).
  apply String.eqb_neq in Hp. rewrite Hp.
  unfold bind at 1. unfold emit at 1. simpl.
  rewrite (bind_returned _ _ _ _ _ (display_messages_run _ _ _ _ _ _ _ _)).
  eexists. apply user_prompt_block_run.
Qed.

Lemma chat_page_no_prompt wd coll us u cs ms n scr :
  user_prompt wd = "" ->
  exists scr',
    chat_page E wd (mkWorld coll us (mkSession (Some true) u (Some cs) (Some ms)) n scr)
    = (Returned tt,
       mkWorld coll us (mkSession (Some true) u (Some cs) (Some ms)) n scr').
Proof.
  intros Hp. unfold chat_page.
  set (w := mkWorld coll us (mkSession (Some true) u (Some cs) (Some ms)) n scr).
  assert (Hli : attr "logged_in" logged_in w = (Returned true, w)) by reflexivity.
  rewrite (bind_returned _ _ _ _ _ Hli). cbv iota.
  destruct (chat_history_sidebar_run E w) as [out Hout].
  rewrite (bind_returned _ _ _ _ _ Hout).
  rewrite Hp.
  unfold bind at 1. unfold emit at 1. simpl.
  rewrite (bind_returned _ _ _ _ _ (display_messages_run _ _ _ _ _ _ _ _)).
  eexists. reflexivity.
Qed.

Lemma chat_page_logged_out wd coll us u cs ms n scr :
  chat_page E wd (mkWorld coll us (mkSession (Some false) u cs ms) n scr)
  = (Returned tt,
     mkWorld coll us (mkSession (Some false) u cs ms) n
       (scr ++ [page_warning "Please log in to use the chat."])).
Proof. reflexivity. Qed.

(** A run in a logged-in session in which [Logout] is not pressed and a
    prompt is submitted. *)
Lemma script_submit wd coll us u cs ms n scr :
  button_Logout wd = false ->
  user_prompt wd <> "" ->
  let p := user_prompt wd in
  let cs0 := or_default (mkChat []) cs in
  let ms0 := or_default [] ms in
  let d1 := ChatDoc.mk "user" p (bson_date (clock E n)) u in
  let rs := map ChatDoc.text (relevant_documents E u p (coll ++ [d1])) in
  let cp := (String.concat " " rs ++ " " ++ p)%string in
  let resp := response_of (model_reply E (sent cs0) cp) in
  exists scr',
    script E wd (mkWorld coll us (mkSession (Some true) u cs ms) n scr)
    = (Raised RerunException,
       mkWorld ((coll ++ [d1]) ++ [ChatDoc.mk "assistant" resp (bson_date (clock E (S n))) u]) us
         (mkSession (Some true) u (Some (mkChat (sent cs0 ++ [cp])))
            (Some (((ms0 ++ [Turn.mk "user" p None])
                    ++ [Turn.mk "system" cp (Some rs)])
                   ++ [Turn.mk "assistant" resp None])))
         (S (S n)) scr').
Proof.
  intros Hlo Hp p cs0 ms0 d1 rs cp resp. unfold script.
  rewrite (bind_returned _ _ _ _ _ (login_interface_logged_in _ _ _ _ _ _ _ _ Hlo)).
  rewrite (bind_returned _ _ _ _ _ (init_chat_run _ _ _ _ _ _ _ _)).
  apply chat_page_submit, Hp.
Qed.

(** A run in a logged-in session with nothing pressed and no prompt. *)
Lemma script_logged_in_quiet wd coll us u cs ms n scr :
  button_Logout wd = false ->
  user_prompt wd = "" ->
  exists scr',
    script E wd (mkWorld coll us (mkSession (Some true) u cs ms) n scr)
    = (Returned tt,
       mkWorld coll us
         (mkSession (Some true) u (Some (or_default (mkChat []) cs))
            (Some (or_default [] ms))) n scr').
Proof.
  intros Hlo Hp. unfold script.
  rewrite (bind_returned _ _ _ _ _ (login_interface_logged_in _ _ _ _ _ _ _ _ Hlo)).
  rewrite (bind_returned _ _ _ _ _ (init_chat_run _ _ _ _ _ _ _ _)).
  apply chat_page_no_prompt, Hp.
Qed.

(** A run in a logged-out session with nothing pressed. *)
Lemma script_logged_out_quiet coll us u cs ms n scr :
  exists scr',
    script E idle (mkWorld coll us (mkSession (Some false) u cs ms) n scr)
    = (Returned tt,
       mkWorld coll us
         (mkSession (Some false) u (Some (or_default (mkChat []) cs))
            (Some (or_default [] ms))) n scr').
Proof.
  unfold script.
  assert (Hl : login_interface idle (mkWorld coll us (mkSession (Some false) u cs ms) n scr)
               = (Returned tt,
                  mkWorld coll us (mkSession (Some false) u cs ms) n
                    (scr ++ [sidebar_title "User Login"]))) by reflexivity.
  rewrite (bind_returned _ _ _ _ _ Hl).
  rewrite (bind_returned _ _ _ _ _ (init_chat_run _ _ _ _ _ _ _ _)).
  rewrite chat_page_logged_out. eexists. reflexivity.
Qed.

End ScriptRuns.

(** ** One interaction *)
Section Interactions.

Variable E : Env.

(** The submit interaction, in full: the submitting run asks for a rerun,
    and the rerun only renders. *)
Lemma interaction_submit wd coll us u cs ms n scr :
  button_Logout wd = false ->
  user_prompt wd <> "" ->
  let p := user_prompt wd in
  let cs0 := or_default (mkChat []) cs in
  let ms0 := or_default [] ms in
  let d1 := ChatDoc.mk "user" p (bson_date (clock E n)) u in
  let rs := map ChatDoc.text (relevant_documents E u p (coll ++ [d1])) in
  let cp := (String.concat " " rs ++ " " ++ p)%string in
  let resp := response_of (model_reply E (sent cs0) cp) in
  exists scr',
    interaction E wd (mkWorld coll us (mkSession (Some true) u cs ms) n scr)
    = (Returned tt,
       mkWorld ((coll ++ [d1]) ++ [ChatDoc.mk "assistant" resp (bson_date (clock E (S n))) u]) us
         (mkSession (Some true) u (Some (mkChat (sent cs0 ++ [cp])))
            (Some (((ms0 ++ [Turn.mk "user" p None])
                    ++ [Turn.mk "system" cp (Some rs)])
                   ++ [Turn.mk "assistant" resp None])))
         (S (S n)) scr').
Proof.
  intros Hlo Hp p cs0 ms0 d1 rs cp resp. unfold interaction, clear_screen. simpl.
  destruct (script_submit E wd coll us u cs ms n [] Hlo Hp) as [scr1 H1].
  cbv zeta in H1. rewrite H1. simpl.
  match goal with
  | |- context [script E idle (mkWorld ?c ?us' (mkSession _ ?u' ?cs' ?ms') ?n' [])] =>
      destruct (script_logged_in_quiet E idle c us' u' cs' ms' n' []
                  eq_refl eq_refl) as [scr2 H2]
  end.
  simpl in H2. exists scr2. exact H2.
Qed.

End Interactions.

(** ** The claims about a submitted prompt *)

(** C1 (as amended): a completed submit persists exactly two new Message
    records, the user-role one and then the assistant-role one, whether
    the model call succeeds or fails; the system/debug entry is appended
    to the in-memory view only, which grows by three entries (user,
    system, assistant). *)
Theorem submit_persists_user_and_assistant (E : Env) (wd : Widgets) (w : World) :
  logged_in (session_state w) = Some true ->
  button_Logout wd = false ->
  user_prompt wd <> "" ->
  let w' := snd (interaction E wd w) in
  let u := username (session_state w) in
  exists reply debug t1 t2,
    fst (interaction E wd w) = Returned tt /\
    collection w'
    = collection w ++ [ChatDoc.mk "user" (user_prompt wd) t1 u;
                       ChatDoc.mk "assistant" reply t2 u] /\
    messages (session_state w')
    = Some (or_default [] (messages (session_state w))
            ++ [Turn.mk "user" (user_prompt wd) None;
                debug;
                Turn.mk "assistant" reply None]) /\
    Turn.role debug = "system" /\
    List.length (collection w') = (List.length (collection w) + 2)%nat.
Proof.
  destruct w as [coll us [li u cs ms] n scr]. simpl.
  intros -> Hlo Hp.
  destruct (interaction_submit E wd coll us u cs ms n scr Hlo Hp) as [scr' H].
  cbv zeta in H. rewrite H. simpl.
  eexists _, _, _, _. repeat split.
  - now rewrite <- app_assoc.
  - rewrite <- !app_assoc. reflexivity.
  - reflexivity.
  - rewrite !length_app. simpl. lia.
Qed.

(** C4: a failure of the model call is caught in the submit block and
    becomes the reply text "Error: " followed by its description; that
    reply is persisted as the assistant-role Message and appended to the
    in-memory view in the place of a normal reply, the handle has
    received the prompt exactly once, no exception leaves the
    interaction, the session stays logged in, and the next submitted
    prompt is handled on the same handle. *)
Theorem model_failure_becomes_reply (E : Env) (wd : Widgets) (w : World)
  (description : string) :
  logged_in (session_state w) = Some true ->
  button_Logout wd = false ->
  user_prompt wd <> "" ->
  let p := user_prompt wd in
  let u := username (session_state w) in
  let handle := or_default (mkChat []) (chat_session (session_state w)) in
  let stored := collection w ++ [ChatDoc.mk "user" p (bson_date (clock E (clock_reads w))) u] in
  let retrieved := map ChatDoc.text (relevant_documents E u p stored) in
  let prompt := (String.concat " " retrieved ++ " " ++ p)%string in
  model_reply E (sent handle) prompt = inr description ->
  let w' := snd (interaction E wd w) in
  let reply := ("Error: " ++ description)%string in
  fst (interaction E wd w) = Returned tt /\
  collection w'
  = stored ++ [ChatDoc.mk "assistant" reply (bson_date (clock E (S (clock_reads w)))) u] /\
  messages (session_state w')
  = Some (or_default [] (messages (session_state w))
          ++ [Turn.mk "user" p None;
              Turn.mk "system" prompt (Some retrieved);
              Turn.mk "assistant" reply None]) /\
  chat_session (session_state w') = Some (mkChat (sent handle ++ [prompt])) /\
  logged_in (session_state w') = Some true /\
  forall next : Widgets,
    button_Logout next = false ->
    user_prompt next <> "" ->
    exists prompt',
      fst (interaction E next w') = Returned tt /\
      chat_session (session_state (snd (interaction E next w')))
      = Some (mkChat ((sent handle ++ [prompt]) ++ [prompt'])).
Proof.
  destruct w as [coll us [li u cs ms] n scr]. simpl.
  intros -> Hlo Hp Hfail.
  destruct (interaction_submit E wd coll us u cs ms n scr Hlo Hp) as [scr' H].
  cbv zeta in H. rewrite H. simpl. rewrite Hfail. simpl.
  split; [reflexivity|]. split; [reflexivity|].
  split; [now rewrite <- !app_assoc|]. split; [reflexivity|].
  split; [reflexivity|].
  intros next Hlo' Hp'.
  match goal with
  | |- context [interaction E next (mkWorld ?c ?us' (mkSession _ ?u' ?cs' ?ms') ?n' ?scr0)] =>
      destruct (interaction_submit E next c us' u' cs' ms' n' scr0 Hlo' Hp')
        as [scr2 H2]
  end.
  cbv zeta in H2. rewrite H2. simpl. eexists. split; reflexivity.
Qed.

(** C7: the prompt passed to the model is the retrieved texts joined
    with single spaces, then a space, then the submitted text; the
    retrieved texts are the whole result of the retrieval query, as the
    debug entry records them. *)
Theorem augmented_prompt_is_context_then_text (E : Env) (wd : Widgets) (w : World) :
  logged_in (session_state w) = Some true ->
  button_Logout wd = false ->
  user_prompt wd <> "" ->
  let t := user_prompt wd in
  let u := username (session_state w) in
  let handle := or_default (mkChat []) (chat_session (session_state w)) in
  let stored := collection w ++ [ChatDoc.mk "user" t (bson_date (clock E (clock_reads w))) u] in
  let w' := snd (interaction E wd w) in
  exists rs reply,
    rs = map ChatDoc.text (relevant_documents E u t stored) /\
    chat_session (session_state w')
    = Some (mkChat (sent handle ++ [(String.concat " " rs ++ " " ++ t)%string])) /\
    messages (session_state w')
    = Some (or_default [] (messages (session_state w))
            ++ [Turn.mk "user" t None;
                Turn.mk "system" (String.concat " " rs ++ " " ++ t)%string (Some rs);
                Turn.mk "assistant" reply None]).
Proof.
  destruct w as [coll us [li u cs ms] n scr]. simpl.
  intros -> Hlo Hp.
  destruct (interaction_submit E wd coll us u cs ms n scr Hlo Hp) as [scr' H].
  cbv zeta in H. rewrite H. simpl.
  eexists _, _. repeat split. now rewrite <- !app_assoc.
Qed.

(** ** The retrieval query *)

Lemma option_string_eqb_eq (a b : option string) :
  option_string_eqb a b = true <-> a = b.
Proof.
  destruct a as [x|], b as [y|]; simpl; split; intros H;
    try discriminate; try reflexivity.
  - apply String.eqb_eq in H. now subst.
  - inversion H. apply String.eqb_refl.
Qed.

Lemma candidates_spec (E : Env) u q coll d :
  In d (candidates E u q coll) <->
  In d coll /\ ChatDoc.username d = u /\ text_match E q (ChatDoc.text d) = true.
Proof.
  unfold candidates, of_user. rewrite filter_In, andb_true_iff, option_string_eqb_eq.
  tauto.
Qed.

Lemma arranged_perm (E : Env) (l : list ChatDoc.t) :
  env_ok E ->
  Permutation (sort_timestamp descending (natural_order E l)) l.
Proof.
  intros Hok. eapply perm_trans; [apply sort_timestamp_perm | apply Hok].
Qed.

Lemma relevant_documents_in (E : Env) u q coll d :
  env_ok E ->
  In d (relevant_documents E u q coll) -> In d (candidates E u q coll).
Proof.
  intros Hok Hin. unfold relevant_documents in Hin.
  apply in_firstn in Hin.
  eapply Permutation_in; [apply arranged_perm, Hok | exact Hin].
Qed.

Lemma relevant_documents_sorted (E : Env) u q coll :
  StronglySorted newer_or_equal (relevant_documents E u q coll).
Proof.
  unfold relevant_documents. apply firstn_strongly_sorted, sort_descending_sorted.
Qed.

(** In a newest-first list, a document strictly newer than all the
    others comes first. *)
Lemma newest_is_head (l : list ChatDoc.t) (d : ChatDoc.t) :
  StronglySorted newer_or_equal l ->
  In d l ->
  (forall x, In x l -> x = d \/ ChatDoc.timestamp x < ChatDoc.timestamp d) ->
  exists rest, l = d :: rest.
Proof.
  intros Hs Hin Hnew. destruct l as [|a l]; [contradiction|].
  destruct (Hnew a (or_introl eq_refl)) as [->|Hlt]; [now exists l|].
  destruct Hin as [->|Hin]; [now exists l|].
  inversion Hs as [|? ? _ Hall]; subst. rewrite Forall_forall in Hall.
  specialize (Hall d Hin). unfold newer_or_equal in Hall. lia.
Qed.

(** C2: the retrieval returns at most five texts; they are the texts of
    stored Messages whose username is the session's and whose text
    matches the query under the store's text search, in the order of
    their timestamps, most recent first.  The call reads the store and
    changes nothing. *)
Theorem retrieve_bounded_owned_newest_first (E : Env) (w : World) (q : string) :
  env_ok E ->
  exists docs,
    retrieve_relevant_messages E q w = (Returned (map ChatDoc.text docs), w) /\
    (List.length docs <= 5)%nat /\
    Forall (fun d => In d (collection w) /\
                     ChatDoc.username d = username (session_state w) /\
                     text_match E q (ChatDoc.text d) = true) docs /\
    StronglySorted newer_or_equal docs.
Proof.
  intros Hok.
  exists (relevant_documents E (username (session_state w)) q (collection w)).
  split; [destruct w; reflexivity|]. split; [|split].
  - unfold relevant_documents. apply firstn_le_length.
  - rewrite Forall_forall. intros d Hd.
    apply candidates_spec. eapply relevant_documents_in; eauto.
  - apply relevant_documents_sorted.
Qed.

(** C8 (as amended): given the store, the username and the query, the
    retrieval has one possible result whenever no two of the user's
    matching Messages share a timestamp, whatever order the server
    yields them in; and the result is empty when no stored Message of the
    user matches, in particular when the user has no history. *)
Theorem retrieve_determined_when_timestamps_differ
  (E1 E2 : Env) (w : World) (q : string) :
  env_ok E1 -> env_ok E2 ->
  (forall t, text_match E1 q t = text_match E2 q t) ->
  let u := username (session_state w) in
  (NoDup (map ChatDoc.timestamp (candidates E1 u q (collection w))) ->
   retrieve_relevant_messages E1 q w = retrieve_relevant_messages E2 q w) /\
  (candidates E1 u q (collection w) = [] ->
   fst (retrieve_relevant_messages E1 q w) = Returned []) /\
  (filter (of_user u) (collection w) = [] ->
   fst (retrieve_relevant_messages E1 q w) = Returned []).
Proof.
  intros Hok1 Hok2 Hsame u.
  assert (Hcand : forall coll, candidates E1 u q coll = candidates E2 u q coll).
  { intros coll. unfold candidates. apply filter_ext. intros d. now rewrite Hsame. }
  assert (Hempty : candidates E1 u q (collection w) = [] ->
                   fst (retrieve_relevant_messages E1 q w) = Returned []).
  { intros Hnone. destruct w as [coll us ss n scr]. simpl in *.
    unfold relevant_documents. fold u. rewrite Hnone.
    pose proof (Hok1 []) as Hp. apply Permutation_sym, Permutation_nil in Hp.
    now rewrite Hp. }
  split; [|split].
  - intros Hnd. destruct w as [coll us ss n scr]. simpl in *.
    enough (Heq : relevant_documents E1 u q coll = relevant_documents E2 u q coll)
      by (unfold retrieve_relevant_messages; run_prims; fold u; now rewrite Heq).
    unfold relevant_documents. f_equal.
    apply sorted_arrangement_unique.
    + eapply perm_trans; [apply arranged_perm, Hok1|].
      rewrite Hcand. apply Permutation_sym, arranged_perm, Hok2.
    + apply sort_descending_sorted.
    + apply sort_descending_sorted.
    + eapply Permutation_NoDup; [|exact Hnd].
      apply Permutation_map, Permutation_sym, arranged_perm, Hok1.
  - exact Hempty.
  - intros Hnohist. apply Hempty.
    destruct (candidates E1 u q (collection w)) as [|d l] eqn:Hc; [reflexivity|].
    assert (Hin : In d (candidates E1 u q (collection w))) by (rewrite Hc; now left).
    apply candidates_spec in Hin. destruct Hin as (Hin & Hu & _).
    assert (Hf : In d (filter (of_user u) (collection w))).
    { apply filter_In. split; [exact Hin|]. now apply option_string_eqb_eq. }
    rewrite Hnohist in Hf. contradiction.
Qed.

Lemma candidates_app (E : Env) u q l1 l2 :
  candidates E u q (l1 ++ l2) = candidates E u q l1 ++ candidates E u q l2.
Proof. unfold candidates. apply filter_app. Qed.

(** C9: the user-role Message is stored before the retrieval runs, so
    the retrieval reads a store that holds it; when the submitted text
    matches itself under the text search, that Message is among the
    candidates of its own query, it is retrieved whenever fewer than five
    earlier Messages of the user match, and it is the first retrieved
    text whenever its timestamp is later than those of the earlier
    matches. *)
Theorem submitted_text_is_its_own_candidate (E : Env) (wd : Widgets) (w : World) :
  env_ok E ->
  logged_in (session_state w) = Some true ->
  button_Logout wd = false ->
  user_prompt wd <> "" ->
  text_match E (user_prompt wd) (user_prompt wd) = true ->
  let t := user_prompt wd in
  let u := username (session_state w) in
  let own := ChatDoc.mk "user" t (bson_date (clock E (clock_reads w))) u in
  let w' := snd (interaction E wd w) in
  exists rs reply,
    rs = map ChatDoc.text (relevant_documents E u t (collection w ++ [own])) /\
    messages (session_state w')
    = Some (or_default [] (messages (session_state w))
            ++ [Turn.mk "user" t None;
                Turn.mk "system" (String.concat " " rs ++ " " ++ t)%string (Some rs);
                Turn.mk "assistant" reply None]) /\
    In own (candidates E u t (collection w ++ [own])) /\
    ((List.length (candidates E u t (collection w)) < 5)%nat -> In t rs) /\
    ((forall d, In d (candidates E u t (collection w)) ->
                ChatDoc.timestamp d < ChatDoc.timestamp own) ->
     exists rest, rs = t :: rest).
Proof.
  destruct w as [coll us [li u cs ms] n scr]. simpl.
  intros Hok -> Hlo Hp Hself.
  destruct (interaction_submit E wd coll us u cs ms n scr Hlo Hp) as [scr' H].
  cbv zeta in H. rewrite H. simpl. clear H.
  set (t := user_prompt wd) in *.
  set (own := ChatDoc.mk "user" t (bson_date (clock E n)) u).
  assert (Hown : candidates E u t [own] = [own]).
  { unfold candidates, of_user. simpl. rewrite Hself.
    now rewrite (proj2 (option_string_eqb_eq u u) eq_refl). }
  assert (Hcand : candidates E u t (coll ++ [own]) = candidates E u t coll ++ [own])
    by (now rewrite candidates_app, Hown).
  assert (Hin : In own (candidates E u t (coll ++ [own])))
    by (rewrite Hcand; apply in_or_app; right; now left).
  set (arranged := sort_timestamp descending
                     (natural_order E (candidates E u t (coll ++ [own])))).
  assert (Hperm : Permutation arranged (candidates E u t (coll ++ [own])))
    by apply arranged_perm, Hok.
  assert (Harr : In own arranged)
    by (eapply Permutation_in; [apply Permutation_sym, Hperm | exact Hin]).
  eexists _, _. split; [reflexivity|]. split; [now rewrite <- !app_assoc|].
  split; [exact Hin|]. split.
  - intros Hfew. unfold relevant_documents. fold arranged.
    rewrite firstn_all2.
    + change t with (ChatDoc.text own). now apply in_map.
    + rewrite (Permutation_length Hperm), Hcand, length_app. simpl. lia.
  - intros Hnew.
    destruct (newest_is_head arranged own) as [rest Hrest].
    + apply sort_descending_sorted.
    + exact Harr.
    + intros x Hx. apply (Permutation_in _ Hperm) in Hx.
      rewrite Hcand in Hx. apply in_app_or in Hx.
      destruct Hx as [Hx|[Hx|[]]]; [right; now apply Hnew | now left].
    + unfold relevant_documents. fold arranged. rewrite Hrest.
      simpl. eexists. reflexivity.
Qed.

(** ** Logout and login *)
Section LogoutLogin.

Variable E : Env.

Lemma interaction_logout wd coll us u cs ms n scr :
  button_Logout wd = true ->
  exists scr',
    interaction E wd (mkWorld coll us (mkSession (Some true) u cs ms) n scr)
    = (Returned tt,
       mkWorld coll us
         (mkSession (Some false) None (Some (or_default (mkChat []) cs))
            (Some (or_default [] ms))) n scr').
Proof.
  intros Hlo. unfold interaction, clear_screen, script. simpl.
  rewrite (bind_raised _ _ _ _ _ (login_interface_logout wd _ _ _ _ _ _ _ Hlo)).
  apply script_logged_out_quiet.
Qed.

Lemma authenticate_user_run (u p : string) (w : World) :
  authenticate_user u p w
  = (Returned (match find (by_username_password u (hash_password p)) (user_collection w)
               with Some _ => true | None => false end), w).
Proof. reflexivity. Qed.

Lemma login_interface_login wd coll us u0 cs ms n scr :
  register wd = false ->
  button_Login wd = true ->
  find (by_username_password (login_username wd) (hash_password (login_password wd))) us
  <> None ->
  login_interface wd (mkWorld coll us (mkSession (Some false) u0 cs ms) n scr)
  = (Returned tt,
     mkWorld coll us (mkSession (Some true) (Some (login_username wd)) cs ms) n
       (scr ++ [sidebar_title "User Login"; sidebar_success "Login successful."])).
Proof.
  intros Hr Hb Hauth.
  unfold login_interface, authenticate_user. run_prims. rewrite Hr, Hb. simpl.
  destruct (find _ us); [|contradiction]. simpl.
  now rewrite <- app_assoc.
Qed.

Lemma interaction_login wd coll us u0 cs ms n scr :
  env_ok E ->
  register wd = false ->
  button_Login wd = true ->
  user_prompt wd = "" ->
  find (by_username_password (login_username wd) (hash_password (login_password wd))) us
  <> None ->
  interaction E wd (mkWorld coll us (mkSession (Some false) u0 (Some cs) (Some ms)) n scr)
  = (Returned tt,
     mkWorld coll us
       (mkSession (Some true) (Some (login_username wd)) (Some cs) (Some ms)) n
       ([sidebar_title "User Login"; sidebar_success "Login successful."]
        ++ (sidebar_title "Chat History" :: history_of E (Some (login_username wd)) coll)
        ++ [page_title "Zephyr - ChatBot"]
        ++ flat_map rendered_turn ms)).
Proof.
  intros Hok Hr Hb Hp Hauth. unfold interaction, clear_screen, script. simpl.
  rewrite (bind_returned _ _ _ _ _
             (login_interface_login wd coll us u0 (Some cs) (Some ms) n [] Hr Hb Hauth)).
  rewrite (bind_returned _ _ _ _ _ (init_chat_run _ _ _ _ _ _ _ _)). simpl.
  unfold chat_page.
  match goal with |- context [bind (attr "logged_in" logged_in) ?k ?w0] =>
    assert (Hli : attr "logged_in" logged_in w0 = (Returned true, w0)) by reflexivity;
    rewrite (bind_returned _ _ _ _ _ Hli); cbv iota;
    rewrite (bind_returned _ _ _ _ _ (chat_history_sidebar_lists_store E w0 Hok))
  end.
  rewrite Hp. unfold add_screen at 1. simpl.
  unfold bind at 1. unfold emit at 1. simpl.
  rewrite (bind_returned _ _ _ _ _ (display_messages_run _ _ _ _ _ _ _ _)).
  simpl. unfold ret. do 2 f_equal.
  rewrite <- ?app_assoc. reflexivity.
Qed.

End LogoutLogin.

(** C3 (as amended): logout resets the logged-in flag and the username
    and nothing else; the in-memory view of turns and the model handle
    stay in the session state, and every persisted Message stays as it
    was, in content and order.  On the next login the sidebar history is
    the result of a query of the store for the user who logs in, and the
    view that was kept is rendered again below it. *)
Theorem logout_keeps_store_view_and_handle
  (E : Env) (w : World) (out back : Widgets) :
  env_ok E ->
  logged_in (session_state w) = Some true ->
  button_Logout out = true ->
  register back = false ->
  button_Login back = true ->
  user_prompt back = "" ->
  fst (authenticate_user (login_username back) (login_password back) w)
  = Returned true ->
  let view := or_default [] (messages (session_state w)) in
  let handle := or_default (mkChat []) (chat_session (session_state w)) in
  let w1 := snd (interaction E out w) in
  let w2 := snd (interaction E back w1) in
  session_state w1 = mkSession (Some false) None (Some handle) (Some view) /\
  collection w1 = collection w /\
  collection w2 = collection w /\
  session_state w2
  = mkSession (Some true) (Some (login_username back)) (Some handle) (Some view) /\
  screen w2
  = [sidebar_title "User Login"; sidebar_success "Login successful."]
    ++ (sidebar_title "Chat History"
        :: history_of E (Some (login_username back)) (collection w))
    ++ [page_title "Zephyr - ChatBot"]
    ++ flat_map rendered_turn view.
Proof.
  destruct w as [coll us [li u cs ms] n scr]. simpl.
  intros Hok -> Hout Hr Hb Hp Hauth.
  destruct (interaction_logout E out coll us u cs ms n scr Hout) as [scr1 H1].
  rewrite H1. simpl.
  assert (Hfound : find (by_username_password (login_username back)
                           (hash_password (login_password back))) us <> None).
  { unfold authenticate_user in Hauth. revert Hauth. run_prims.
    destruct (find _ us); [discriminate | intros H; discriminate H]. }
  rewrite (interaction_login E back coll us None _ _ n scr1 Hok Hr Hb Hp Hfound).
  simpl. repeat split.
Qed.

(** ** What a run does to [db.users] *)

Create HintDb users_frame.

Lemma keeps_users_ret {A} (a : A) : keeps_users (ret a).
Proof. intros w. reflexivity. Qed.

Lemma keeps_users_raise {A} (e : exn) : keeps_users (@raise A e).
Proof. intros w. reflexivity. Qed.

Lemma keeps_users_bind {A B} (c : M A) (k : A -> M B) :
  keeps_users c -> (forall a, keeps_users (k a)) -> keeps_users (bind c k).
Proof.
  intros Hc Hk w. unfold bind. specialize (Hc w).
  destruct (c w) as [[a|e] w1]; simpl in *.
  - now rewrite Hk.
  - exact Hc.
Qed.

Lemma keeps_users_try_except {A} (body : M A) (handler : string -> M A) :
  keeps_users body -> (forall d, keeps_users (handler d)) ->
  keeps_users (try_except body handler).
Proof.
  intros Hb Hh w. unfold try_except. specialize (Hb w).
  destruct (body w) as [[a|[d| |]] w1]; simpl in *; try exact Hb.
  now rewrite Hh.
Qed.

Lemma keeps_users_when (b : bool) (c : M unit) :
  keeps_users c -> keeps_users (when b c).
Proof. destruct b; simpl; [trivial | intros _; apply keeps_users_ret]. Qed.

Lemma keeps_users_for_each {A} (l : list A) (body : A -> M unit) :
  (forall x, keeps_users (body x)) -> keeps_users (for_each l body).
Proof.
  intros Hb. induction l as [|x l IH]; simpl.
  - apply keeps_users_ret.
  - apply keeps_users_bind; auto.
Qed.

Lemma keeps_users_get_world : keeps_users get_world.
Proof. intros w. reflexivity. Qed.

Lemma keeps_users_update_session f : keeps_users (update_session f).
Proof. intros w. reflexivity. Qed.

Lemma keeps_users_emit o : keeps_users (emit o).
Proof. intros w. reflexivity. Qed.

Lemma keeps_users_collection_insert_one d : keeps_users (collection_insert_one d).
Proof. intros w. reflexivity. Qed.

Lemma keeps_users_attr {A} key (field : SessionState -> option A) :
  keeps_users (attr key field).
Proof. intros w. unfold attr, bind, get_world. destruct (field _); reflexivity. Qed.

Lemma keeps_users_datetime_now E : keeps_users (datetime_now E).
Proof. intros w. reflexivity. Qed.

#[local] Hint Resolve keeps_users_ret keeps_users_raise keeps_users_try_except
  keeps_users_when keeps_users_for_each keeps_users_get_world
  keeps_users_update_session keeps_users_emit keeps_users_collection_insert_one
  keeps_users_attr keeps_users_datetime_now : users_frame.

Ltac frame_users :=
  repeat first
    [ apply keeps_users_bind; [|intros ?]
    | apply keeps_users_try_except; [|intros ?]
    | apply keeps_users_when
    | apply keeps_users_for_each; intros ?
    | solve [auto with users_frame]
    | match goal with
      | |- keeps_users (if ?b then _ else _) => destruct b
      | |- keeps_users (match ?o with _ => _ end) => destruct o
      end ].

Lemma keeps_users_init_chat : keeps_users init_chat.
Proof.
  unfold init_chat, set_chat_session, set_messages. frame_users.
Qed.

Lemma keeps_users_user_prompt_block E p : keeps_users (user_prompt_block E p).
Proof.
  unfold user_prompt_block, store_message, messages_append, set_messages,
    retrieve_relevant_messages, send_message, set_chat_session, get_username,
    experimental_rerun.
  frame_users.
Qed.

Lemma keeps_users_chat_page E wd : keeps_users (chat_page E wd).
Proof.
  pose proof (keeps_users_user_prompt_block E (user_prompt wd)).
  unfold chat_page, chat_history_sidebar, display_messages, display_message,
    get_username.
  frame_users.
Qed.

Arguments hash_password : simpl never.

Lemma bind_users_tail {A B} (c : M A) (k : A -> M B) (w : World) :
  (forall a, keeps_users (k a)) ->
  user_collection (snd (bind c k w)) = user_collection (snd (c w)).
Proof.
  intros Hk. unfold bind. destruct (c w) as [[a|e] w1]; simpl; [apply Hk | reflexivity].
Qed.

Lemma login_interface_users (wd : Widgets) (w : World) :
  user_collection (snd (login_interface wd w))
  = user_collection w ++ (if registers wd w then [registered_user wd] else []).
Proof.
  destruct w as [coll us [li u cs ms] n scr].
  unfold login_interface, registers, registered_user, register_user, authenticate_user.
  run_prims.
  destruct li as [[|]|]; simpl;
    destruct (register wd), (button_Register wd), (button_Login wd),
      (button_Logout wd); simpl;
    try destruct (find (by_username (register_username wd)) us); simpl;
    try destruct (find (by_username_password _ _) us); simpl;
    rewrite ?app_nil_r; reflexivity.
Qed.

Lemma script_users (E : Env) (wd : Widgets) (w : World) :
  user_collection (snd (script E wd w))
  = user_collection w ++ (if registers wd w then [registered_user wd] else []).
Proof.
  unfold script. rewrite bind_users_tail.
  - apply login_interface_users.
  - intros _. apply keeps_users_bind;
      [apply keeps_users_init_chat | intros _; apply keeps_users_chat_page].
Qed.

Lemma interaction_users (E : Env) (wd : Widgets) (w : World) :
  user_collection (snd (interaction E wd w))
  = user_collection w ++ (if registers wd w then [registered_user wd] else []).
Proof.
  unfold interaction.
  pose proof (script_users E wd (clear_screen w)) as H.
  assert (Hr : registers wd (clear_screen w) = registers wd w) by (now destruct w).
  rewrite Hr in H. clear Hr.
  destruct (script E wd (clear_screen w)) as [[[]|[d| |]] w1]; simpl in *;
    try exact H.
  rewrite script_users.
  assert (Hidle : registers idle (clear_screen w1) = false).
  { unfold registers. simpl. now rewrite andb_false_r. }
  rewrite Hidle, app_nil_r. destruct w1. exact H.
Qed.

Lemma step_users (E : Env) (sid : nat) (wd : Widgets) (s : System) :
  users (step E sid wd s)
  = users s ++ (if registers wd (load sid s) then [registered_user wd] else []).
Proof. unfold step, run_in. simpl. now rewrite interaction_users. Qed.

Lemma find_by_username_none (u : string) (us : list UserDoc.t) :
  find (by_username u) us = None -> ~ In u (map UserDoc.username us).
Proof.
  intros Hnone Hin. apply in_map_iff in Hin. destruct Hin as (d & Hd & Hin).
  pose proof (find_none _ _ Hnone d Hin) as Hf.
  unfold by_username in Hf. rewrite Hd, String.eqb_refl in Hf. discriminate.
Qed.

Lemma registers_fresh (wd : Widgets) (w : World) :
  registers wd w = true ->
  ~ In (register_username wd) (map UserDoc.username (user_collection w)).
Proof.
  unfold registers. intros H. apply andb_true_iff in H. destruct H as [_ H].
  apply find_by_username_none. destruct (find _ _); [discriminate | reflexivity].
Qed.

Lemma evolves_trans (E : Env) (s1 s2 s3 : System) :
  evolves E s1 s2 -> evolves E s2 s3 -> evolves E s1 s3.
Proof.
  intros H12 H23. induction H23 as [|s' sid wd _ IH]; [exact H12|].
  now apply evolves_step.
Qed.

(** Users are only ever added, at the end. *)
Lemma evolves_users_grow (E : Env) (s s' : System) :
  evolves E s s' -> exists more, users s' = users s ++ more.
Proof.
  induction 1 as [|s' sid wd _ [more IH]].
  - exists []. now rewrite app_nil_r.
  - rewrite step_users, IH, <- app_assoc. eexists. reflexivity.
Qed.

(** At most one User per username, in every reachable state. *)
Lemma reachable_usernames_unique (E : Env) (s : System) :
  reachable E s -> NoDup (map UserDoc.username (users s)).
Proof.
  unfold reachable. induction 1 as [|s' sid wd _ IH].
  - constructor.
  - rewrite step_users.
    destruct (registers wd (load sid s')) eqn:Hreg.
    + rewrite map_app. simpl.
      apply Permutation_NoDup with (l := register_username wd :: map UserDoc.username (users s')).
      * apply Permutation_cons_append.
      * constructor; [|exact IH]. exact (registers_fresh wd (load sid s') Hreg).
    + now rewrite app_nil_r.
Qed.

(** ** Registration and authentication *)

Lemma find_by_username_some (u : string) (us : list UserDoc.t) (d : UserDoc.t) :
  In d us -> UserDoc.username d = u -> find (by_username u) us <> None.
Proof.
  intros Hin Hu Hnone.
  pose proof (find_none _ _ Hnone d Hin) as Hf.
  unfold by_username in Hf. rewrite Hu, String.eqb_refl in Hf. discriminate.
Qed.

(** A run with the Register box ticked and the button pressed, in a
    session that is not logged in. *)
Lemma interaction_register (E : Env) wd coll us li u cs ms n scr :
  li <> Some true ->
  register wd = true ->
  button_Register wd = true ->
  interaction E wd (mkWorld coll us (mkSession li u cs ms) n scr)
  = (Returned tt,
     mkWorld coll
       (match find (by_username (register_username wd)) us with
        | Some _ => us
        | None => us ++ [registered_user wd]
        end)
       (mkSession (Some false) (match li with None => None | Some _ => u end)
          (Some (or_default (mkChat []) cs)) (Some (or_default [] ms)))
       n
       [sidebar_title "User Login";
        match find (by_username (register_username wd)) us with
        | Some _ => sidebar_error "Username already exists"
        | None => sidebar_success "Registration successful. Please log in."
        end;
        page_warning "Please log in to use the chat."]).
Proof.
  intros Hli Hr Hb.
  assert (Hlogin :
    login_interface wd (mkWorld coll us (mkSession li u cs ms) n [])
    = (Returned tt,
       mkWorld coll
         (match find (by_username (register_username wd)) us with
          | Some _ => us
          | None => us ++ [registered_user wd]
          end)
         (mkSession (Some false) (match li with None => None | Some _ => u end) cs ms)
         n
         [sidebar_title "User Login";
          match find (by_username (register_username wd)) us with
          | Some _ => sidebar_error "Username already exists"
          | None => sidebar_success "Registration successful. Please log in."
          end])).
  { unfold login_interface, register_user, registered_user.
    destruct li as [[|]|]; [contradiction| |]; run_prims; rewrite Hr, Hb; simpl;
      destruct (find (by_username (register_username wd)) us); reflexivity. }
  unfold interaction, clear_screen, script.
  cbn [collection user_collection session_state clock_reads].
  rewrite (bind_returned _ _ _ _ _ Hlogin).
  rewrite (bind_returned _ _ _ _ _ (init_chat_run _ _ _ _ _ _ _ _)).
  rewrite chat_page_logged_out. reflexivity.
Qed.

(** X24: when interactions run one after another, no two User records
    share a username; and pressing Register with a username that already
    has a User record is answered with the error "Username already
    exists", inserts nothing and leaves the Credential Store as it was. *)
Theorem register_taken_username_rejected (E : Env) (s : System) :
  reachable E s ->
  NoDup (map UserDoc.username (users s)) /\
  forall (sid : nat) (wd : Widgets) (d : UserDoc.t),
    logged_in (sessions s sid) <> Some true ->
    register wd = true ->
    button_Register wd = true ->
    In d (users s) ->
    UserDoc.username d = register_username wd ->
    fst (run_in E sid wd s) = Returned tt /\
    screen (snd (run_in E sid wd s))
    = [sidebar_title "User Login";
       sidebar_error "Username already exists";
       page_warning "Please log in to use the chat."] /\
    users (step E sid wd s) = users s.
Proof.
  intros Hreach. split; [eapply reachable_usernames_unique; eauto|].
  intros sid wd d Hli Hr Hb Hin Hu.
  pose proof (find_by_username_some _ _ _ Hin Hu) as Hfound.
  unfold step, run_in, load.
  destruct (sessions s sid) as [li u cs ms]. simpl in Hli.
  rewrite (interaction_register E wd _ _ li u cs ms _ _ Hli Hr Hb).
  destruct (find (by_username (register_username wd)) (users s));
    [|contradiction].
  repeat split.
Qed.

Lemma register_user_run (u p : string) (w : World) :
  user_collection (snd (register_user u p w))
  = user_collection w ++ [UserDoc.mk u (hash_password p)].
Proof. destruct w. reflexivity. Qed.

(** C6 (as amended): once a registration of (username, password) stored
    its User record, authenticate(username, password) is true in every
    later state of the store, whatever was stored before and whatever is
    stored afterwards; and as long as every User record with that
    username is the one this registration stored, authenticate(username,
    other_password) is false for every other_password whose SHA-256
    digest differs from that of password. *)
Theorem registered_password_authenticates
  (u p : string) (w0 w : World) (later : list UserDoc.t) :
  user_collection w = user_collection (snd (register_user u p w0)) ++ later ->
  fst (authenticate_user u p w) = Returned true /\
  ((forall d, In d (user_collection w) -> UserDoc.username d = u ->
              d = UserDoc.mk u (hash_password p)) ->
   forall other,
     hash_password other <> hash_password p ->
     fst (authenticate_user u other w) = Returned false).
Proof.
  intros Hstore. rewrite register_user_run in Hstore.
  assert (Hin : In (UserDoc.mk u (hash_password p)) (user_collection w)).
  { rewrite Hstore. apply in_or_app. left. apply in_or_app. right. now left. }
  rewrite !authenticate_user_run. cbn [fst]. split.
  - destruct (find (by_username_password u (hash_password p)) (user_collection w))
      eqn:Hf; [reflexivity|].
    pose proof (find_none _ _ Hf _ Hin) as Hfalse.
    unfold by_username_password in Hfalse.
    cbn [UserDoc.username UserDoc.password] in Hfalse.
    rewrite !String.eqb_refl in Hfalse. discriminate.
  - intros Hsingle other Hother. rewrite authenticate_user_run. cbn [fst].
    destruct (find (by_username_password u (hash_password other)) (user_collection w))
      as [d|] eqn:Hf; [|reflexivity].
    apply find_some in Hf. destruct Hf as [Hd Hmatch].
    unfold by_username_password in Hmatch. apply andb_true_iff in Hmatch.
    destruct Hmatch as [Hu Hpw].
    apply String.eqb_eq in Hu. apply String.eqb_eq in Hpw.
    rewrite (Hsingle d Hd Hu) in Hpw. cbn [UserDoc.password] in Hpw. congruence.
Qed.

(** ** The two round trips of the Register handler *)

Lemma bind_assoc {A B C} (c : M A) (k : A -> M B) (h : B -> M C) (w : World) :
  bind (bind c k) h w = bind c (fun a => bind (k a) h) w.
Proof. unfold bind. destruct (c w) as [[a|e] w1]; reflexivity. Qed.

Lemma bind_same_start {A B} (c c' : M A) (k : A -> M B) (w : World) :
  c w = c' w -> bind c k w = bind c' k w.
Proof. intros H. unfold bind. now rewrite H. Qed.

(** Run back to back, the lookup and the rest are the run of the script. *)
Lemma Register_handler_splits (E : Env) (wd : Widgets) (w : World) :
  logged_in (session_state w) <> Some true ->
  register wd = true ->
  button_Register wd = true ->
  script E wd w = bind (Register_lookup wd) (Register_rest E wd) w.
Proof.
  intros Hli Hr Hb. unfold script, Register_rest.
  assert (Hfront :
    login_interface wd w
    = bind (Register_lookup wd)
        (fun found =>
           if found then emit (sidebar_error "Username already exists")
           else
             bind (register_user (register_username wd) (register_password wd))
               (fun _ => emit (sidebar_success "Registration successful. Please log in.")))
        w).
  { destruct w as [coll us [li u cs ms] n scr]. simpl in Hli.
    unfold login_interface, Register_lookup, register_user.
    destruct li as [[|]|]; [contradiction| |]; run_prims; rewrite Hr, Hb; simpl;
      destruct (find (by_username (register_username wd)) us); reflexivity. }
  rewrite (bind_same_start _ _ _ _ Hfront). apply bind_assoc.
Qed.

Lemma start_Register_result (sid : nat) (wd : Widgets) (s : System) :
  fst (start_Register sid wd s)
  = match find (by_username (register_username wd)) (users s) with
    | Some _ => true
    | None => false
    end /\
  users (snd (start_Register sid wd s)) = users s.
Proof.
  unfold start_Register, Register_lookup, load.
  destruct (logged_in (sessions s sid)) eqn:Hli; run_prims; rewrite Hli; simpl;
    split; reflexivity.
Qed.

Lemma complete_Register_inserts (E : Env) (sid : nat) (wd : Widgets) (s : System) :
  users (complete_Register E sid wd false s) = users s ++ [registered_user wd].
Proof.
  unfold complete_Register, Register_rest. cbn [users save].
  rewrite bind_users_tail.
  - rewrite bind_users_tail by (intros _; apply keeps_users_emit).
    apply register_user_run.
  - intros _. apply keeps_users_bind;
      [apply keeps_users_init_chat | intros _; apply keeps_users_chat_page].
Qed.

(** Whenever two connections handle Register for one free username with
    both lookups before either insert, both insert. *)
Lemma racing_registrations_both_insert
  (E : Env) (sid1 sid2 : nat) (wd1 wd2 : Widgets) (s : System) :
  find (by_username (register_username wd1)) (users s) = None ->
  find (by_username (register_username wd2)) (users s) = None ->
  users (racing_registrations E sid1 sid2 wd1 wd2 s)
  = users s ++ [registered_user wd1; registered_user wd2].
Proof.
  intros Hfree1 Hfree2. unfold racing_registrations.
  destruct (start_Register_result sid1 wd1 s) as [Hf1 Hu1].
  destruct (start_Register sid1 wd1 s) as [found1 s1]. simpl in Hf1, Hu1.
  destruct (start_Register_result sid2 wd2 s1) as [Hf2 Hu2].
  destruct (start_Register sid2 wd2 s1) as [found2 s2]. simpl in Hf2, Hu2.
  rewrite Hu1, Hfree2 in Hf2. rewrite Hfree1 in Hf1. subst found1 found2.
  rewrite !complete_Register_inserts, Hu2, Hu1, <- app_assoc. reflexivity.
Qed.

(** ** The digest *)

Lemma hash_password_length (p : string) : String.length (hash_password p) = 64%nat.
Proof. reflexivity. Qed.

Lemma nibble_is_hex (w k : Z) : In (SHA256.nibble w k) SHA256.hexchars.
Proof.
  unfold SHA256.nibble. apply nth_In.
  change (List.length SHA256.hexchars) with 16%nat.
  change 15 with (Z.ones 4). rewrite Z.land_ones by lia.
  pose proof (Z.mod_pos_bound (Z.shiftr w (4 * k)) (2 ^ 4) eq_refl) as Hb.
  change (2 ^ 4) with 16 in *. lia.
Qed.

Lemma hex_strings_cons (c : ascii) (s : string) (n : nat) :
  In c SHA256.hexchars -> In s (hex_strings n) -> In (String c s) (hex_strings (S n)).
Proof.
  intros Hc Hs. cbn [hex_strings]. apply in_flat_map. exists c. split; [exact Hc|].
  now apply in_map.
Qed.

(** Every digest is one of the finitely many strings of 64 hex digits. *)
Lemma hash_password_is_hex (p : string) : In (hash_password p) (hex_strings 64).
Proof.
  unfold hash_password, SHA256.hexdigest, SHA256.hex_of_hash, SHA256.hex8.
  repeat (apply hex_strings_cons; [apply nibble_is_hex|]).
  now left.
Qed.

(** No function from the naturals into a finite list is injective. *)
Lemma no_injection_into_list {A} (f : nat -> A) (l : list A) :
  (forall i, In (f i) l) ->
  ~ (forall i j, f i = f j -> i = j).
Proof.
  intros Hin Hinj.
  assert (Hnd : NoDup (map f (seq 0 (S (List.length l))))).
  { apply Injective_map_NoDup; [exact Hinj | apply seq_NoDup]. }
  assert (Hincl : incl (map f (seq 0 (S (List.length l)))) l).
  { intros x Hx. apply in_map_iff in Hx. destruct Hx as (i & <- & _). apply Hin. }
  pose proof (NoDup_incl_length Hnd Hincl) as Hlen.
  rewrite length_map, length_seq in Hlen. lia.
Qed.

Lemma a_password_length (n : nat) : String.length (a_password n) = n.
Proof.
  unfold a_password. induction n as [|n IH]; simpl; [reflexivity | now rewrite IH].
Qed.

(** Two different passwords with the same digest exist. *)
Lemma hash_password_collides :
  ~ (forall p other, other <> p -> hash_password other <> hash_password p).
Proof.
  intros Hclaim.
  apply (no_injection_into_list (fun i => hash_password (a_password i))
           (hex_strings 64)).
  - intros i. apply hash_password_is_hex.
  - intros i j Heq. destruct (Nat.eq_dec i j) as [|Hne]; [assumption|].
    exfalso. apply (Hclaim (a_password j) (a_password i)); [|exact Heq].
    intros Hp. apply Hne. now rewrite <- (a_password_length i), Hp, a_password_length.
Qed.

(** C10: the digest stored by a registration is [hash_password] of the
    password and of nothing else, 64 hexadecimal digits of its SHA-256
    hash; registrations of the same password store the same digest
    whatever the usernames and the state of the store, and two stored
    digests are equal only if [hash_password] maps the two passwords to
    the same value. *)
Theorem same_password_same_digest (u1 u2 p1 p2 : string) (w1 w2 : World) :
  exists d1 d2,
    user_collection (snd (register_user u1 p1 w1)) = user_collection w1 ++ [d1] /\
    user_collection (snd (register_user u2 p2 w2)) = user_collection w2 ++ [d2] /\
    UserDoc.username d1 = u1 /\
    UserDoc.username d2 = u2 /\
    UserDoc.password d1 = SHA256.hexdigest (encode p1) /\
    UserDoc.password d2 = SHA256.hexdigest (encode p2) /\
    String.length (UserDoc.password d1) = 64%nat /\
    (p1 = p2 -> UserDoc.password d1 = UserDoc.password d2) /\
    (UserDoc.password d1 = UserDoc.password d2 -> hash_password p1 = hash_password p2).
Proof.
  exists (UserDoc.mk u1 (hash_password p1)), (UserDoc.mk u2 (hash_password p2)).
  cbn [UserDoc.username UserDoc.password].
  repeat split; try reflexivity.
  - now intros ->.
  - trivial.
Qed.

(** ** Worked examples *)

Lemma env_echo_ok : env_ok env_echo.
Proof. intros l. apply Permutation_refl. Qed.

Lemma env_fail_ok : env_ok env_fail.
Proof. intros l. apply Permutation_refl. Qed.

Lemma env_echo_rev_ok : env_ok env_echo_rev.
Proof. intros l. apply Permutation_sym, Permutation_rev. Qed.

(** The retrieval example of the specification: alice's texts with
    "cats", newest first; bob's text is not returned. *)
Example retrieve_cats :
  fst (retrieve_relevant_messages env_echo "cats" (alice_world alice_docs))
  = Returned ["cats rule"; "cats are great"].
Proof. vm_compute. reflexivity. Qed.

(** The end-to-end example of the specification: bob registers, logs in
    and submits "hello" to a model that echoes its prompt. *)
Example bob_end_to_end :
  chat_history bob_asked
  = [ChatDoc.mk "user" "hello" 0 (Some "bob");
     ChatDoc.mk "assistant" "hello hello" 1000 (Some "bob")]
  /\ messages (sessions bob_asked 0)
     = Some [Turn.mk "user" "hello" None;
             Turn.mk "system" "hello hello" (Some ["hello"]);
             Turn.mk "assistant" "hello hello" None].
Proof. vm_compute. split; reflexivity. Qed.

(** C1, counterexample: bob's submit of "hello" leaves two records in
    the store, not three; no system-role record is persisted. *)
Lemma submit_stores_two_records_not_three :
  chat_history bob_logged_in = [] /\
  chat_history bob_asked
  = [ChatDoc.mk "user" "hello" 0 (Some "bob");
     ChatDoc.mk "assistant" "hello hello" 1000 (Some "bob")] /\
  List.length (chat_history bob_asked)
  <> (List.length (chat_history bob_logged_in) + 3)%nat.
Proof. vm_compute. repeat split. discriminate. Qed.

(** C3, counterexample: after bob's logout the three turns of his view
    and the handle that received his prompt are still in the session
    state. *)
Lemma logout_leaves_view_and_handle_in_place :
  logged_in (sessions bob_logged_out 0) = Some false /\
  messages (sessions bob_logged_out 0)
  = Some [Turn.mk "user" "hello" None;
          Turn.mk "system" "hello hello" (Some ["hello"]);
          Turn.mk "assistant" "hello hello" None] /\
  chat_session (sessions bob_logged_out 0) = Some (mkChat ["hello hello"]).
Proof. vm_compute. repeat split. Qed.

(** C5, the code at the failing input: connections 0 and 1 press
    Register for the username "bob" at the same time.  Both lookups find
    nothing, both handlers insert, and the Credential Store holds two User
    records with the username "bob". *)
Theorem racing_registrations_store_a_username_twice :
  fst (start_Register 0 (press_Register "bob" "pw1") initial_system) = false /\
  fst (start_Register 1 (press_Register "bob" "pw2")
         (snd (start_Register 0 (press_Register "bob" "pw1") initial_system)))
  = false /\
  users bob_twice
  = [UserDoc.mk "bob" (hash_password "pw1"); UserDoc.mk "bob" (hash_password "pw2")] /\
  ~ NoDup (map UserDoc.username (users bob_twice)).
Proof.
  split; [vm_compute; reflexivity|]. split; [vm_compute; reflexivity|].
  split; [vm_compute; reflexivity|].
  intros Hnd.
  assert (Hnames : map UserDoc.username (users bob_twice) = ["bob"; "bob"])
    by (vm_compute; reflexivity).
  rewrite Hnames in Hnd. apply NoDup_cons_iff in Hnd.
  destruct Hnd as [Hnotin _]. apply Hnotin. now left.
Qed.

(** C6, counterexample: after connections 0 and 1 registered "bob" at the
    same time with the passwords "pw1" and "pw2", the pair ("bob", "pw1")
    was created by registration, "pw2" is another password with another
    digest, and authenticate("bob", "pw2") is true.  Besides, even after a
    single registration not every other password is rejected: SHA-256
    maps infinitely many passwords to finitely many digests. *)
Lemma some_other_password_also_authenticates :
  (In (UserDoc.mk "bob" (hash_password "pw1")) (users bob_twice) /\
   "pw2" <> "pw1" /\
   hash_password "pw2" <> hash_password "pw1" /\
   fst (authenticate_user "bob" "pw2" (load 2 bob_twice)) = Returned true) /\
  ~ (forall p other : string,
        other <> p ->
        fst (authenticate_user "bob" other
               (load 1 (step env_echo 0 (press_Register "bob" p) initial_system)))
        = Returned false).
Proof.
  split.
  - split; [vm_compute; left; reflexivity|]. split; [discriminate|].
    split; [vm_compute; discriminate | vm_compute; reflexivity].
  - intros Hclaim. apply hash_password_collides.
    intros p other Hne Heq. specialize (Hclaim p other Hne).
    rewrite authenticate_user_run in Hclaim.
    cbn [fst load user_collection] in Hclaim.
    rewrite step_users in Hclaim.
    change (registers (press_Register "bob" p) (load 0 initial_system)) with true in Hclaim.
    cbn [users initial_system app find] in Hclaim.
    unfold by_username_password, registered_user, press_Register in Hclaim.
    cbn [register_username register_password UserDoc.username UserDoc.password]
      in Hclaim.
    rewrite Heq, !String.eqb_refl in Hclaim. discriminate.
Qed.

(** C8, counterexample: two of alice's Messages match "cats" and carry
    the same timestamp; a server that yields them in store order and one
    that yields them in the opposite order are both within the contract of
    the sort, and the two results differ. *)
Lemma tied_timestamps_admit_two_results :
  env_ok env_echo /\ env_ok env_echo_rev /\
  fst (retrieve_relevant_messages env_echo "cats" (alice_world tied_docs))
  = Returned ["cats first"; "cats second"] /\
  fst (retrieve_relevant_messages env_echo_rev "cats" (alice_world tied_docs))
  = Returned ["cats second"; "cats first"].
Proof.
  split; [apply env_echo_ok|]. split; [apply env_echo_rev_ok|].
  vm_compute. split; reflexivity.
Qed.
(** ** Test vectors of the digest *)

Example round_constants :
  List.length SHA256.K = 64%nat /\
  nth 0 SHA256.K 0 = 0x428a2f98 /\ nth 63 SHA256.K 0 = 0xc67178f2 /\
  nth 0 SHA256.H0 0 = 0x6a09e667 /\ nth 7 SHA256.H0 0 = 0x5be0cd19.
Proof. vm_compute. repeat split. Qed.

Example sha_empty :
  hash_password "" = "e3b0c44298fc1c149afbf4c8996fb92427ae41e4649b934ca495991b7852b855".
Proof. vm_compute. reflexivity. Qed.

Example sha_abc :
  hash_password "abc" = "ba7816bf8f01cfea414140de5dae2223b00361a396177a9cb410ff61f20015ad".
Proof. vm_compute. reflexivity. Qed.

Example sha_pw1 :
  hash_password "pw1" = "c592df4a86933b92addc9842402ddf198c638ea9be58916ee6e3734e1e3152f8".
Proof. vm_compute. reflexivity. Qed.

Example sha_two_blocks :
  hash_password "abcdbcdecdefdefgefghfghighijhijkijkljklmklmnlmnomnopnopq"
  = "248d6a61d20638b8e5c026930c3e6039a33ce45964ff2167f6ecedd419db06c1".
Proof. vm_compute. reflexivity. Qed.

Example sha_55 :
  hash_password "aaaaaaaaaaaaaaaaaaaaaaaaaaaaaaaaaaaaaaaaaaaaaaaaaaaaaaa"
  = "9f4390f8d30c2dd92ec9f095b65e2b9ae9b0a925a5258e241c9f1e910f734318".
Proof. vm_compute. reflexivity. Qed.

Example sha_56 :
  hash_password "aaaaaaaaaaaaaaaaaaaaaaaaaaaaaaaaaaaaaaaaaaaaaaaaaaaaaaaa"
  = "b35439a4ac6f0948b6d6f9e3c6af0f5f590ce20f1bde7090ef7970686ec6738a".
Proof. vm_compute. reflexivity. Qed.

(** ** The theorems at concrete inputs *)

(** alice asks "cats now" while the hosted model is down. *)
Lemma submit_persists_user_and_assistant_witness :
  let w := alice_world alice_docs in
  let w' := snd (interaction env_fail (ask "cats now") w) in
  exists reply debug t1 t2,
    fst (interaction env_fail (ask "cats now") w) = Returned tt /\
    collection w'
    = collection w ++ [ChatDoc.mk "user" "cats now" t1 (Some "alice");
                       ChatDoc.mk "assistant" reply t2 (Some "alice")] /\
    messages (session_state w')
    = Some ([] ++ [Turn.mk "user" "cats now" None;
                   debug;
                   Turn.mk "assistant" reply None]) /\
    Turn.role debug = "system" /\
    List.length (collection w') = (List.length (collection w) + 2)%nat.
Proof.
  apply (submit_persists_user_and_assistant env_fail (ask "cats now")
           (alice_world alice_docs)).
  - reflexivity.
  - reflexivity.
  - discriminate.
Defined.

Lemma retrieve_bounded_owned_newest_first_witness :
  exists docs,
    retrieve_relevant_messages env_echo "cats" (alice_world alice_docs)
    = (Returned (map ChatDoc.text docs), alice_world alice_docs) /\
    (List.length docs <= 5)%nat /\
    Forall (fun d => In d alice_docs /\
                     ChatDoc.username d = Some "alice" /\
                     keyword_match "cats" (ChatDoc.text d) = true) docs /\
    StronglySorted newer_or_equal docs.
Proof.
  apply (retrieve_bounded_owned_newest_first env_echo (alice_world alice_docs) "cats").
  intros l. apply Permutation_refl.
Defined.

(** bob, who asked "hello", logs out and logs in again. *)
Lemma logout_keeps_store_view_and_handle_witness :
  let w := load 0 bob_asked in
  let w1 := snd (interaction env_echo press_Logout w) in
  let w2 := snd (interaction env_echo (press_Login "bob" "pw1") w1) in
  messages (session_state w1) = messages (session_state w) /\
  collection w2 = collection w.
Proof.
  intros w w1 w2.
  destruct (logout_keeps_store_view_and_handle env_echo (load 0 bob_asked)
              press_Logout (press_Login "bob" "pw1"))
    as (H1 & _ & H2 & _).
  - intros l. apply Permutation_refl.
  - vm_compute. reflexivity.
  - reflexivity.
  - reflexivity.
  - reflexivity.
  - reflexivity.
  - vm_compute. reflexivity.
  - split; [|exact H2]. subst w1 w. rewrite H1.
    vm_compute. reflexivity.
Defined.

Lemma model_failure_becomes_reply_witness :
  let w := alice_world alice_docs in
  let w' := snd (interaction env_fail (ask "cats now") w) in
  fst (interaction env_fail (ask "cats now") w) = Returned tt /\
  chat_session (session_state w')
  = Some (mkChat ["cats now cats rule cats are great cats now"]) /\
  logged_in (session_state w') = Some true.
Proof.
  intros w w'. subst w w'.
  destruct (model_failure_becomes_reply env_fail (ask "cats now")
              (alice_world alice_docs) "503 service unavailable")
    as (H1 & _ & _ & H2 & H3 & _).
  - reflexivity.
  - reflexivity.
  - discriminate.
  - reflexivity.
  - split; [exact H1|]. split; [|exact H3].
    rewrite H2. vm_compute. reflexivity.
Defined.

(** A second connection tries to register "bob" again. *)
Lemma register_taken_username_rejected_witness :
  NoDup (map UserDoc.username (users bob_registered)) /\
  users (step env_echo 1 (press_Register "bob" "hunter2") bob_registered)
  = users bob_registered.
Proof.
  destruct (register_taken_username_rejected env_echo bob_registered) as [Hnd Hrej].
  - apply evolves_step, evolves_here.
  - split; [exact Hnd|].
    apply (Hrej 1%nat (press_Register "bob" "hunter2")
             (UserDoc.mk "bob" (hash_password "pw1"))).
    + vm_compute. discriminate.
    + reflexivity.
    + reflexivity.
    + vm_compute. left. reflexivity.
    + reflexivity.
Defined.

(** bob registered with "pw1" on an empty store; the store of a later
    state holds his record and no other with his username. *)
Lemma registered_password_authenticates_witness :
  fst (authenticate_user "bob" "pw1" (load 1 bob_asked)) = Returned true /\
  fst (authenticate_user "bob" "pw2" (load 1 bob_asked)) = Returned false.
Proof.
  destruct (registered_password_authenticates "bob" "pw1"
              (load 0 initial_system) (load 1 bob_asked) []) as [Hyes Hno].
  - vm_compute. reflexivity.
  - split; [exact Hyes|]. apply Hno.
    + intros d Hd _. vm_compute in Hd. destruct Hd as [<-|[]].
      vm_compute. reflexivity.
    + vm_compute. discriminate.
Defined.

Lemma augmented_prompt_is_context_then_text_witness :
  let w := alice_world alice_docs in
  let w' := snd (interaction env_echo (ask "cats now") w) in
  let stored := alice_docs ++ [ChatDoc.mk "user" "cats now" 5000 (Some "alice")] in
  exists rs reply,
    rs = map ChatDoc.text (relevant_documents env_echo (Some "alice") "cats now" stored) /\
    chat_session (session_state w')
    = Some (mkChat ([] ++ [(String.concat " " rs ++ " " ++ "cats now")%string])) /\
    messages (session_state w')
    = Some ([] ++ [Turn.mk "user" "cats now" None;
                   Turn.mk "system" (String.concat " " rs ++ " " ++ "cats now")%string
                     (Some rs);
                   Turn.mk "assistant" reply None]).
Proof.
  apply (augmented_prompt_is_context_then_text env_echo (ask "cats now")
           (alice_world alice_docs)).
  - reflexivity.
  - reflexivity.
  - discriminate.
Defined.

(** alice's two matches for "cats" have different timestamps. *)
Lemma retrieve_determined_when_timestamps_differ_witness :
  retrieve_relevant_messages env_echo "cats" (alice_world alice_docs)
  = retrieve_relevant_messages env_echo_rev "cats" (alice_world alice_docs).
Proof.
  destruct (retrieve_determined_when_timestamps_differ env_echo env_echo_rev
              (alice_world alice_docs) "cats") as (Hsame & _ & _).
  - intros l. apply Permutation_refl.
  - intros l. apply Permutation_sym, Permutation_rev.
  - reflexivity.
  - apply Hsame. vm_compute.
    repeat constructor; simpl; intuition discriminate.
Defined.

Lemma submitted_text_is_its_own_candidate_witness :
  let w := alice_world alice_docs in
  let w' := snd (interaction env_echo (ask "cats now") w) in
  exists rest reply,
    messages (session_state w')
    = Some [Turn.mk "user" "cats now" None;
            Turn.mk "system"
              (String.concat " " ("cats now" :: rest) ++ " " ++ "cats now")%string
              (Some ("cats now" :: rest));
            Turn.mk "assistant" reply None].
Proof.
  intros w w'. subst w w'.
  destruct (submitted_text_is_its_own_candidate env_echo (ask "cats now")
              (alice_world alice_docs))
    as (rs & reply & Hrs & Hms & _ & _ & Hhead).
  - intros l. apply Permutation_refl.
  - reflexivity.
  - reflexivity.
  - discriminate.
  - reflexivity.
  - destruct Hhead as [rest Hrest].
    + intros d Hd. vm_compute in Hd.
      destruct Hd as [<-|[<-|[]]]; vm_compute; reflexivity.
    + exists rest, reply. rewrite Hrest in Hms. exact Hms.
Defined.

Lemma same_password_same_digest_witness :
  exists d1 d2,
    user_collection (snd (register_user "bob" "pw1" (alice_world [])))
    = user_collection (alice_world []) ++ [d1] /\
    user_collection (snd (register_user "carol" "pw1" (load 0 bob_asked)))
    = user_collection (load 0 bob_asked) ++ [d2] /\
    UserDoc.password d1 = UserDoc.password d2.
Proof.
  destruct (same_password_same_digest "bob" "carol" "pw1" "pw1"
              (alice_world []) (load 0 bob_asked))
    as (d1 & d2 & H1 & H2 & _ & _ & _ & _ & _ & Hsame & _).
  exists d1, d2. repeat split; [exact H1 | exact H2 | apply Hsame; reflexivity].
Defined.

(** * Further properties of the script *)

(** ** What one interaction does *)
Section Effects.

Variable E : Env.

Lemma login_interface_logged_out wd coll us li u cs ms n scr :
  li <> Some true ->
  let w := mkWorld coll us (mkSession li u cs ms) n scr in
  exists scr',
    login_interface wd w
    = (Returned tt,
       mkWorld coll (us ++ (if registers wd w then [registered_user wd] else []))
         (mkSession (Some (logs_in wd w))
            (if logs_in wd w then Some (login_username wd)
             else match li with Some false => u | _ => None end)
            cs ms)
         n scr').
Proof.
  intros Hli w. subst w.
  unfold login_interface, registers, logs_in, registered_user, register_user,
    authenticate_user.
  destruct li as [[|]|]; [contradiction| |]; run_prims;
    destruct (register wd), (button_Register wd), (button_Login wd); simpl;
    try destruct (find (by_username (register_username wd)) us); simpl;
    try destruct (find (by_username_password _ _) us); simpl;
    rewrite ?app_nil_r; eexists; reflexivity.
Qed.

Lemma interaction_quiet_logged_in wd coll us u cs ms n scr :
  button_Logout wd = false ->
  user_prompt wd = "" ->
  exists scr',
    interaction E wd (mkWorld coll us (mkSession (Some true) u cs ms) n scr)
    = (Returned tt,
       mkWorld coll us
         (mkSession (Some true) u (Some (or_default (mkChat []) cs))
            (Some (or_default [] ms))) n scr').
Proof.
  intros Hlo Hp. unfold interaction, clear_screen. simpl.
  destruct (script_logged_in_quiet E wd coll us u cs ms n [] Hlo Hp) as [scr' H].
  rewrite H. now exists scr'.
Qed.

Lemma option_bool_true (o : option bool) : o = Some true \/ o <> Some true.
Proof. destruct o as [[|]|]; [now left | right; discriminate | right; discriminate]. Qed.

Lemma logs_in_not_registers wd w : logs_in wd w = true -> registers wd w = false.
Proof.
  unfold logs_in, registers. destruct (register wd); simpl.
  - rewrite andb_false_r. discriminate.
  - intros _. now rewrite andb_false_r.
Qed.

(** Every interaction returns, and does one of three things. *)
Lemma interaction_effects_ex (wd : Widgets) (w : World) :
  exists w',
    interaction E wd w = (Returned tt, w') /\ interaction_effect E wd w w'.
Proof.
  destruct w as [coll us [li u cs ms] n scr].
  destruct (option_bool_true li) as [->|Hli].
  - (* logged in *)
    destruct (button_Logout wd) eqn:Hlo.
    + destruct (interaction_logout E wd coll us u cs ms n scr Hlo) as [scr' H].
      eexists. split; [exact H|].
      apply effect_logged_out; try reflexivity.
      unfold chats. simpl. now rewrite Hlo.
    + destruct (String.eqb_spec (user_prompt wd) "") as [Hp|Hp].
      * destruct (interaction_quiet_logged_in wd coll us u cs ms n scr Hlo Hp)
          as [scr' H].
        eexists. split; [exact H|].
        apply effect_quiet; try reflexivity; try assumption.
        unfold chats. simpl. now rewrite Hlo.
      * destruct (interaction_submit E wd coll us u cs ms n scr Hlo Hp) as [scr' H].
        cbv zeta in H. eexists. split; [exact H|].
        apply effect_submit; [ | exact Hp | | reflexivity | ]; simpl.
        -- unfold chats. simpl. now rewrite Hlo.
        -- now rewrite <- app_assoc.
        -- now rewrite <- !app_assoc.
  - (* not logged in *)
    set (w := mkWorld coll us (mkSession li u cs ms) n scr).
    assert (Hchats : chats wd w = logs_in wd w)
      by (unfold chats; simpl; destruct li as [[|]|]; [contradiction| |]; reflexivity).
    assert (Hu : chat_user wd w = Some (login_username wd))
      by (unfold chat_user; simpl; destruct li as [[|]|]; [contradiction| |]; reflexivity).
    destruct (login_interface_logged_out wd coll us li u cs ms n [] Hli) as [scr1 H1].
    cbv zeta in H1.
    change (registers wd (mkWorld coll us (mkSession li u cs ms) n []))
      with (registers wd w) in H1.
    change (logs_in wd (mkWorld coll us (mkSession li u cs ms) n []))
      with (logs_in wd w) in H1.
    unfold interaction, script.
    change (clear_screen w) with (mkWorld coll us (mkSession li u cs ms) n []).
    rewrite (bind_returned _ _ _ _ _ H1).
    rewrite (bind_returned _ _ _ _ _ (init_chat_run _ _ _ _ _ _ _ _)).
    cbv beta.
    destruct (logs_in wd w) eqn:Hin.
    + destruct (String.eqb_spec (user_prompt wd) "") as [Hp|Hp].
      * destruct (chat_page_no_prompt E wd coll
                    (us ++ (if registers wd w then [registered_user wd] else []))
                    (Some (login_username wd)) (or_default (mkChat []) cs)
                    (or_default [] ms) n scr1 Hp) as [scr2 H2].
        rewrite H2. eexists. split; [reflexivity|].
        apply effect_quiet; [exact Hchats | exact Hp | reflexivity | reflexivity |].
        now rewrite Hu.
      * destruct (chat_page_submit E wd coll
                    (us ++ (if registers wd w then [registered_user wd] else []))
                    (Some (login_username wd)) (or_default (mkChat []) cs)
                    (or_default [] ms) n scr1 Hp) as [scr2 H2].
        cbv zeta in H2. rewrite H2. unfold clear_screen.
        cbn [collection user_collection session_state clock_reads].
        change (bind (login_interface idle) (fun _ => bind init_chat (fun _ => chat_page E idle)))
          with (script E idle).
        match goal with |- context [script E idle (mkWorld ?c ?us' (mkSession _ ?u' ?cs' ?ms') ?n' [])] =>
          destruct (script_logged_in_quiet E idle c us' u' cs' ms' n' [] eq_refl eq_refl)
            as [scr3 H3]
        end.
        rewrite H3. eexists. split; [reflexivity|].
        apply effect_submit; [exact Hchats | exact Hp | | reflexivity |];
          cbv zeta; rewrite Hu; simpl.
        -- now rewrite <- app_assoc.
        -- now rewrite <- !app_assoc.
    + rewrite chat_page_logged_out. eexists. split; [reflexivity|].
      apply effect_logged_out; [exact Hchats | reflexivity | reflexivity |].
      simpl. destruct li as [[|]|]; [contradiction| |]; reflexivity.
Qed.

Lemma interaction_effects (wd : Widgets) (w : World) :
  fst (interaction E wd w) = Returned tt /\
  interaction_effect E wd w (snd (interaction E wd w)).
Proof.
  destruct (interaction_effects_ex wd w) as (w' & H & Heff).
  rewrite H. now split.
Qed.

End Effects.

(** ** Invariants of the reachable states *)

Lemma step_sessions_same (E : Env) sid wd s :
  sessions (step E sid wd s) sid = session_state (snd (run_in E sid wd s)).
Proof. unfold step, save. simpl. now rewrite Nat.eqb_refl. Qed.

Lemma step_sessions_other (E : Env) sid wd s j :
  j <> sid -> sessions (step E sid wd s) j = sessions s j.
Proof.
  intros Hj. unfold step, save. simpl.
  apply Nat.eqb_neq in Hj. now rewrite Hj.
Qed.

Lemma session_ok_more (us more : list UserDoc.t) (ss : SessionState) :
  session_ok us ss -> session_ok (us ++ more) ss.
Proof.
  unfold session_ok. destruct (logged_in ss) as [[|]|]; auto.
  intros (u & Hu & Hin). exists u. split; [exact Hu|].
  rewrite map_app. apply in_or_app. now left.
Qed.

Lemma attributed_more (us more : list UserDoc.t) (d : ChatDoc.t) :
  attributed us d -> attributed (us ++ more) d.
Proof.
  intros (Hrole & u & Hu & Hin). split; [exact Hrole|].
  exists u. split; [exact Hu|]. rewrite map_app. apply in_or_app. now left.
Qed.

Lemma logs_in_matches wd w :
  logs_in wd w = true ->
  logged_in (session_state w) <> Some true /\
  register wd = false /\
  button_Login wd = true /\
  exists d, In d (user_collection w) /\
            UserDoc.username d = login_username wd /\
            UserDoc.password d = hash_password (login_password wd).
Proof.
  unfold logs_in. intros H.
  apply andb_true_iff in H. destruct H as [H Hfind].
  apply andb_true_iff in H. destruct H as [H Hb].
  apply andb_true_iff in H. destruct H as [Hli Hr].
  split; [destruct (logged_in (session_state w)) as [[|]|]; discriminate|].
  split; [now destruct (register wd)|]. split; [exact Hb|].
  destruct (find _ (user_collection w)) as [d|] eqn:Hf; [|discriminate].
  apply find_some in Hf. destruct Hf as [Hin Hm].
  unfold by_username_password in Hm. apply andb_true_iff in Hm.
  destruct Hm as [Hu Hp]. apply String.eqb_eq in Hu. apply String.eqb_eq in Hp.
  exists d. auto.
Qed.

(** A chat page that runs logged in runs under a registered username. *)
Lemma chat_user_registered wd w :
  session_ok (user_collection w) (session_state w) ->
  chats wd w = true ->
  exists u, chat_user wd w = Some u /\ In u (map UserDoc.username (user_collection w)).
Proof.
  unfold session_ok, chats, chat_user. intros Hok Hc.
  destruct (logged_in (session_state w)) as [[|]|] eqn:Hli; try exact Hok;
    apply logs_in_matches in Hc; destruct Hc as (_ & _ & _ & d & Hin & Hu & _);
    exists (login_username wd); (split; [reflexivity|]);
    rewrite <- Hu; now apply in_map.
Qed.

Lemma effect_session_ok E wd w w' (more : list UserDoc.t) :
  interaction_effect E wd w w' ->
  session_ok (user_collection w) (session_state w) ->
  session_ok (user_collection w ++ more) (session_state w').
Proof.
  intros Heff Hok.
  destruct Heff as [Hc _ _ Hss | Hc _ _ _ Hss | Hc _ p u n handle view own rs cp resp _ _ Hss];
    rewrite Hss; unfold session_ok; simpl.
  - unfold session_ok in Hok.
    destruct (logged_in (session_state w)) as [[|]|]; auto.
  - destruct (chat_user_registered wd w Hok Hc) as (v & Hv & Hin).
    exists v. split; [exact Hv|]. rewrite map_app. apply in_or_app. now left.
  - destruct (chat_user_registered wd w Hok Hc) as (v & Hv & Hin).
    exists v. split; [exact Hv|]. rewrite map_app. apply in_or_app. now left.
Qed.

Lemma effect_attributed E wd w w' (more : list UserDoc.t) :
  interaction_effect E wd w w' ->
  session_ok (user_collection w) (session_state w) ->
  Forall (attributed (user_collection w)) (collection w) ->
  Forall (attributed (user_collection w ++ more)) (collection w').
Proof.
  intros Heff Hok Hall.
  assert (Hold : Forall (attributed (user_collection w ++ more)) (collection w)).
  { eapply Forall_impl; [|exact Hall]. intros d. apply attributed_more. }
  destruct Heff as [_ Hcoll _ _ | _ _ Hcoll _ _ | Hc _ p u n handle view own rs cp resp Hcoll _ _];
    rewrite Hcoll; try exact Hold.
  destruct (chat_user_registered wd w Hok Hc) as (v & Hv & Hin).
  apply Forall_app. split; [exact Hold|].
  assert (Hin' : In v (map UserDoc.username (user_collection w ++ more)))
    by (rewrite map_app; apply in_or_app; now left).
  repeat constructor; simpl; try (now left); try (now right); exists v; now split.
Qed.

Lemma effect_timestamps E wd w w' :
  interaction_effect E wd w w' ->
  map ChatDoc.timestamp (collection w)
  = map (fun i => bson_date (clock E i)) (seq 0 (clock_reads w)) ->
  map ChatDoc.timestamp (collection w')
  = map (fun i => bson_date (clock E i)) (seq 0 (clock_reads w')).
Proof.
  intros Heff Hts.
  destruct Heff as [_ Hcoll Hn _ | _ _ Hcoll Hn _ | _ _ p u n handle view own rs cp resp Hcoll Hn _];
    rewrite Hcoll, Hn; try exact Hts.
  rewrite !seq_S, !map_app, Hts. simpl. now rewrite <- app_assoc.
Qed.

Lemma effect_in_step E wd w w' :
  interaction_effect E wd w w' ->
  in_step (session_state w) -> in_step (session_state w').
Proof.
  unfold in_step. intros Heff Hstep.
  destruct Heff as [_ _ _ Hss | _ _ _ _ Hss | _ _ p u n handle view own rs cp resp _ _ Hss];
    rewrite Hss; simpl; try exact Hstep.
  subst view handle. rewrite !length_app, Hstep. simpl. lia.
Qed.

Lemma effect_trail E wd w w' :
  interaction_effect E wd w w' ->
  trail_matches (session_state w) -> trail_matches (session_state w').
Proof.
  unfold trail_matches. intros Heff Htrail.
  destruct Heff as [_ _ _ Hss | _ _ _ _ Hss | _ _ p u n handle view own rs cp resp _ _ Hss];
    rewrite Hss; simpl; try exact Htrail.
  subst view handle. rewrite filter_app, map_app, Htrail. reflexivity.
Qed.

Lemma reachable_consistent (E : Env) (s : System) :
  reachable E s -> consistent E s.
Proof.
  unfold reachable. induction 1 as [|s' sid wd _ IH].
  - repeat split; try constructor.
  - destruct IH as (Hsess & Hattr & Hts & Hview & Hpw).
    pose proof (interaction_effects E wd (load sid s')) as [_ Heff].
    fold (run_in E sid wd s') in Heff.
    pose proof (step_users E sid wd s') as Husers.
    set (more := if registers wd (load sid s') then [registered_user wd] else []) in *.
    split; [|split; [|split; [|split]]].
    + intros j. rewrite Husers. destruct (Nat.eq_dec j sid) as [->|Hj].
      * rewrite step_sessions_same.
        apply (effect_session_ok E wd (load sid s') _ more Heff). apply Hsess.
      * rewrite step_sessions_other by exact Hj. apply session_ok_more, Hsess.
    + rewrite Husers.
      apply (effect_attributed E wd (load sid s') _ more Heff); [apply Hsess | exact Hattr].
    + apply (effect_timestamps E wd (load sid s') _ Heff). exact Hts.
    + intros j. destruct (Nat.eq_dec j sid) as [->|Hj].
      * rewrite step_sessions_same. split.
        -- apply (effect_in_step E wd (load sid s') _ Heff). apply Hview.
        -- apply (effect_trail E wd (load sid s') _ Heff). apply Hview.
      * rewrite step_sessions_other by exact Hj. apply Hview.
    + rewrite Husers. apply Forall_app. split; [exact Hpw|].
      subst more. destruct (registers wd (load sid s')); constructor; [|constructor].
      now exists (register_password wd).
Qed.

(** ** Properties of single interactions *)


(** X2: an empty prompt box is ignored.  In a logged-in session in which
    Logout is not pressed, a run with an empty prompt stores no Message,
    reads no clock, sends nothing to the model and adds nothing to the
    view. *)
Theorem empty_prompt_is_ignored (E : Env) (wd : Widgets) (w : World) :
  logged_in (session_state w) = Some true ->
  button_Logout wd = false ->
  user_prompt wd = "" ->
  let w' := snd (interaction E wd w) in
  collection w' = collection w /\
  user_collection w' = user_collection w /\
  clock_reads w' = clock_reads w /\
  session_state w'
  = mkSession (Some true) (username (session_state w))
      (Some (or_default (mkChat []) (chat_session (session_state w))))
      (Some (or_default [] (messages (session_state w)))).
Proof.
  destruct w as [coll us [li u cs ms] n scr]. simpl.
  intros -> Hlo Hp.
  destruct (interaction_quiet_logged_in E wd coll us u cs ms n scr Hlo Hp) as [scr' H].
  rewrite H. simpl. repeat split.
Qed.

Lemma not_logging_in wd w :
  register wd = true \/ button_Login wd = false \/
  find (by_username_password (login_username wd) (hash_password (login_password wd)))
       (user_collection w) = None ->
  logs_in wd w = false.
Proof.
  unfold logs_in. intros [H|[H|H]]; rewrite H; simpl;
    rewrite ?andb_false_r; reflexivity.
Qed.

(** X3: a session that is not logged in, and does not log in during the
    run, writes nothing to the Message Store, whatever the prompt box
    holds: no Message is stored, no clock read, nothing sent to the
    model, and the session is logged out afterwards. *)
Theorem logged_out_run_stores_nothing (E : Env) (wd : Widgets) (w : World) :
  logged_in (session_state w) <> Some true ->
  register wd = true \/ button_Login wd = false \/
  find (by_username_password (login_username wd) (hash_password (login_password wd)))
       (user_collection w) = None ->
  let w' := snd (interaction E wd w) in
  collection w' = collection w /\
  clock_reads w' = clock_reads w /\
  logged_in (session_state w') = Some false /\
  chat_session (session_state w')
  = Some (or_default (mkChat []) (chat_session (session_state w))) /\
  messages (session_state w') = Some (or_default [] (messages (session_state w))).
Proof.
  intros Hli Hno w'.
  assert (Hc : chats wd w = false).
  { unfold chats. rewrite (not_logging_in wd w Hno).
    destruct (logged_in (session_state w)) as [[|]|]; [contradiction| |]; reflexivity. }
  destruct (interaction_effects E wd w) as [_ Heff]. fold w' in Heff.
  destruct Heff as [_ Hcoll Hn Hss | Hc' _ _ _ _ | Hc' _ p u n handle view own rs cp resp _ _ _];
    try congruence.
  rewrite Hss. simpl. repeat split; assumption.
Qed.

(** X5: a session becomes logged in only through the Login button with
    a username and a password whose digest a User document holds; it is
    then logged in under that username. *)
Theorem login_requires_matching_digest (E : Env) (wd : Widgets) (w : World) :
  logged_in (session_state w) <> Some true ->
  logged_in (session_state (snd (interaction E wd w))) = Some true ->
  register wd = false /\
  button_Login wd = true /\
  username (session_state (snd (interaction E wd w))) = Some (login_username wd) /\
  exists d, In d (user_collection w) /\
            UserDoc.username d = login_username wd /\
            UserDoc.password d = hash_password (login_password wd).
Proof.
  intros Hli Hafter.
  assert (Hc : chats wd w = logs_in wd w).
  { unfold chats. destruct (logged_in (session_state w)) as [[|]|];
      [contradiction| |]; reflexivity. }
  assert (Hu : chat_user wd w = Some (login_username wd)).
  { unfold chat_user. destruct (logged_in (session_state w)) as [[|]|];
      [contradiction| |]; reflexivity. }
  destruct (interaction_effects E wd w) as [_ Heff].
  destruct Heff as [_ _ _ Hss | Hc' _ _ _ Hss | Hc' _ p u n handle view own rs cp resp _ _ Hss];
    rewrite Hss in Hafter |- *; simpl in *; try discriminate;
    rewrite Hc in Hc'; destruct (logs_in_matches wd w Hc') as (_ & Hr & Hb & Hd);
    subst; rewrite ?Hu; auto.
Qed.

(** X4: pressing Login with a username and a password whose digest no
    User document holds (an unknown username, or a wrong password) shows
    "Invalid username or password" and the request to log in, leaves the
    session logged out and both collections as they were. *)
Theorem failed_login_is_rejected (E : Env) (wd : Widgets) (w : World) :
  logged_in (session_state w) <> Some true ->
  register wd = false ->
  button_Login wd = true ->
  find (by_username_password (login_username wd) (hash_password (login_password wd)))
       (user_collection w) = None ->
  let w' := snd (interaction E wd w) in
  screen w'
  = [sidebar_title "User Login";
     sidebar_error "Invalid username or password";
     page_warning "Please log in to use the chat."] /\
  logged_in (session_state w') = Some false /\
  collection w' = collection w /\
  user_collection w' = user_collection w.
Proof.
  destruct w as [coll us [li u cs ms] n scr].
  cbn [session_state logged_in user_collection collection].
  intros Hli Hr Hb Hfind.
  assert (Hlogin :
    login_interface wd (mkWorld coll us (mkSession li u cs ms) n [])
    = (Returned tt,
       mkWorld coll us
         (mkSession (Some false) (match li with Some false => u | _ => None end) cs ms)
         n
         [sidebar_title "User Login"; sidebar_error "Invalid username or password"])).
  { unfold login_interface, authenticate_user.
    destruct li as [[|]|]; [contradiction| |]; run_prims; rewrite Hr, Hb; simpl;
      rewrite Hfind; reflexivity. }
  unfold interaction, clear_screen, script.
  cbn [collection user_collection session_state clock_reads].
  rewrite (bind_returned _ _ _ _ _ Hlogin).
  rewrite (bind_returned _ _ _ _ _ (init_chat_run _ _ _ _ _ _ _ _)).
  rewrite chat_page_logged_out. simpl. repeat split.
Qed.

(** X6: after Logout the page shows the login sidebar and the request
    to log in, and none of the turns the session still holds. *)
Theorem logout_shows_login_page (E : Env) (wd : Widgets) (w : World) :
  logged_in (session_state w) = Some true ->
  button_Logout wd = true ->
  screen (snd (interaction E wd w))
  = [sidebar_title "User Login"; page_warning "Please log in to use the chat."].
Proof.
  destruct w as [coll us [li u cs ms] n scr]. simpl.
  intros -> Hlo. unfold interaction, clear_screen.
  cbn [collection user_collection session_state clock_reads].
  assert (H1 : script E wd (mkWorld coll us (mkSession (Some true) u cs ms) n [])
               = (Raised RerunException,
                  mkWorld coll us (mkSession (Some false) None cs ms) n
                    ([] ++ [sidebar_write ("Logged in as " ++ str_of_username u)%string]))).
  { unfold script. apply bind_raised. now apply login_interface_logout. }
  rewrite H1. cbn [collection user_collection session_state clock_reads].
  assert (H2 : script E idle (mkWorld coll us (mkSession (Some false) None cs ms) n [])
               = (Returned tt,
                  mkWorld coll us
                    (mkSession (Some false) None (Some (or_default (mkChat []) cs))
                       (Some (or_default [] ms))) n
                    [sidebar_title "User Login";
                     page_warning "Please log in to use the chat."])).
  { unfold script.
    assert (Hl : login_interface idle (mkWorld coll us (mkSession (Some false) None cs ms) n [])
                 = (Returned tt,
                    mkWorld coll us (mkSession (Some false) None cs ms) n
                      [sidebar_title "User Login"])) by reflexivity.
    rewrite (bind_returned _ _ _ _ _ Hl).
    rewrite (bind_returned _ _ _ _ _ (init_chat_run _ _ _ _ _ _ _ _)).
    now rewrite chat_page_logged_out. }
  rewrite H2. reflexivity.
Qed.

(** A User document that a registration inserted stays in the store. *)
Lemma registered_record_stays (E : Env) (s0 s : System) (sid : nat) (wd : Widgets) :
  logged_in (sessions s0 sid) <> Some true ->
  register wd = true ->
  button_Register wd = true ->
  find (by_username (register_username wd)) (users s0) = None ->
  evolves E (step E sid wd s0) s ->
  In (registered_user wd) (users s).
Proof.
  intros Hli Hr Hb Hfree Hev.
  assert (Hregs : registers wd (load sid s0) = true).
  { unfold registers. simpl. rewrite Hr, Hb, Hfree.
    destruct (logged_in (sessions s0 sid)) as [[|]|]; [contradiction| |]; reflexivity. }
  destruct (evolves_users_grow E _ _ Hev) as [more Hmore].
  rewrite Hmore, step_users, Hregs.
  apply in_or_app. left. apply in_or_app. right. now left.
Qed.

(** X7: registration and login compose.  Once a registration of
    (username, password) went through, pressing Login with the same
    username and password in any session that is not logged in, at any
    later time, logs that session in under that username. *)
Theorem registered_user_can_log_in
  (E : Env) (s0 s : System) (sid sid' : nat) (wd back : Widgets) :
  logged_in (sessions s0 sid) <> Some true ->
  register wd = true ->
  button_Register wd = true ->
  find (by_username (register_username wd)) (users s0) = None ->
  evolves E (step E sid wd s0) s ->
  logged_in (sessions s sid') <> Some true ->
  register back = false ->
  button_Login back = true ->
  login_username back = register_username wd ->
  login_password back = register_password wd ->
  let after := sessions (step E sid' back s) sid' in
  logged_in after = Some true /\
  username after = Some (register_username wd).
Proof.
  intros Hli Hr Hb Hfree Hev Hli' Hr' Hb' Hu Hp after.
  pose proof (registered_record_stays E s0 s sid wd Hli Hr Hb Hfree Hev) as Hin.
  assert (Hlogs : logs_in back (load sid' s) = true).
  { unfold logs_in. simpl. rewrite Hr', Hb', Hu, Hp. simpl.
    destruct (find _ (users s)) eqn:Hf.
    - destruct (logged_in (sessions s sid')) as [[|]|]; [contradiction| |]; reflexivity.
    - pose proof (find_none _ _ Hf _ Hin) as Hfalse.
      unfold by_username_password, registered_user in Hfalse.
      cbn [UserDoc.username UserDoc.password] in Hfalse.
      rewrite !String.eqb_refl in Hfalse. discriminate. }
  assert (Hc : chats back (load sid' s) = true).
  { unfold chats. simpl. simpl in Hlogs.
    destruct (logged_in (sessions s sid')) as [[|]|]; [contradiction| |]; exact Hlogs. }
  assert (Hcu : chat_user back (load sid' s) = Some (register_username wd)).
  { unfold chat_user. simpl. rewrite Hu.
    destruct (logged_in (sessions s sid')) as [[|]|]; [contradiction| |]; reflexivity. }
  subst after. rewrite step_sessions_same. unfold run_in.
  destruct (interaction_effects E back (load sid' s)) as [_ Heff].
  destruct Heff as [Hc' _ _ _ | _ _ _ _ Hss | _ _ p u n handle view own rs cp resp _ _ Hss];
    [congruence | |]; rewrite Hss; simpl; try subst u; rewrite Hcu; split; reflexivity.
Qed.

(** ** Properties of every reachable state *)

(** X8: in every reachable state a logged-in session carries the
    username of a User document, and a session that is not logged in
    carries no username. *)
Theorem sessions_agree_with_users (E : Env) (s : System) (sid : nat) :
  reachable E s ->
  (logged_in (sessions s sid) = Some true ->
   exists u d, username (sessions s sid) = Some u /\
               In d (users s) /\ UserDoc.username d = u) /\
  (logged_in (sessions s sid) <> Some true -> username (sessions s sid) = None).
Proof.
  intros Hreach. destruct (reachable_consistent E s Hreach) as (Hsess & _).
  specialize (Hsess sid). unfold session_ok in Hsess. split.
  - intros Hli. rewrite Hli in Hsess. destruct Hsess as (u & Hu & Hin).
    apply in_map_iff in Hin. destruct Hin as (d & Hd & Hin).
    exists u, d. auto.
  - intros Hli. destruct (logged_in (sessions s sid)) as [[|]|];
      [contradiction| |]; exact Hsess.
Qed.

(** X9: in every reachable state each stored Message has the role
    "user" or "assistant" (never "system") and the username of a User
    document (never none). *)
Theorem stored_messages_are_attributed (E : Env) (s : System) (m : ChatDoc.t) :
  reachable E s ->
  In m (chat_history s) ->
  (ChatDoc.role m = "user" \/ ChatDoc.role m = "assistant") /\
  exists u d, ChatDoc.username m = Some u /\
              In d (users s) /\ UserDoc.username d = u.
Proof.
  intros Hreach Hin. destruct (reachable_consistent E s Hreach) as (_ & Hattr & _).
  rewrite Forall_forall in Hattr. destruct (Hattr m Hin) as (Hrole & u & Hu & Hreg).
  split; [exact Hrole|]. apply in_map_iff in Hreg. destruct Hreg as (d & Hd & Hd').
  exists u, d. auto.
Qed.


Lemma increasing_readings_sorted (f : nat -> Z) (a n : nat) :
  strictly_increasing f -> StronglySorted Z.lt (map f (seq a n)).
Proof.
  intros Hinc. revert a. induction n as [|n IH]; intros a; simpl; constructor.
  - apply IH.
  - rewrite Forall_forall. intros x Hx. apply in_map_iff in Hx.
    destruct Hx as (i & <- & Hi). apply in_seq in Hi. apply Hinc. lia.
Qed.

Lemma strongly_sorted_map_inv {A B} (f : A -> B) (R : B -> B -> Prop) (l : list A) :
  StronglySorted R (map f l) -> StronglySorted (fun a b => R (f a) (f b)) l.
Proof.
  induction l as [|x l IH]; simpl; intros H; constructor;
    inversion H as [|? ? Hs Hall]; subst.
  - now apply IH.
  - rewrite Forall_forall in Hall |- *. intros y Hy. apply Hall. now apply in_map.
Qed.

Lemma reachable_timestamps_increase (E : Env) (s : System) :
  reachable E s ->
  strictly_increasing (fun i => bson_date (clock E i)) ->
  StronglySorted Z.lt (map ChatDoc.timestamp (chat_history s)).
Proof.
  intros Hreach Hinc. destruct (reachable_consistent E s Hreach) as (_ & _ & Hts & _).
  rewrite Hts. now apply (increasing_readings_sorted (fun i => bson_date (clock E i))).
Qed.

(** X11: when interactions run one after another and successive
    readings of the clock fall in strictly later milliseconds, the stored
    Messages are in chronological order: each Message is strictly older
    than all Messages inserted after it. *)
Theorem store_order_is_chronological (E : Env) (s : System) :
  reachable E s ->
  strictly_increasing (fun i => bson_date (clock E i)) ->
  StronglySorted (fun a b => ChatDoc.timestamp a < ChatDoc.timestamp b)
                 (chat_history s).
Proof.
  intros Hreach Hinc.
  apply (strongly_sorted_map_inv ChatDoc.timestamp Z.lt).
  now apply reachable_timestamps_increase with (E := E).
Qed.






(** X14: the Credential Store never holds a password: in every
    reachable state the password field of each User document is the
    SHA-256 hex digest of some password, 64 characters long. *)
Theorem only_digests_are_stored (E : Env) (s : System) (d : UserDoc.t) :
  reachable E s ->
  In d (users s) ->
  (exists p, UserDoc.password d = hash_password p) /\
  String.length (UserDoc.password d) = 64%nat.
Proof.
  intros Hreach Hin. destruct (reachable_consistent E s Hreach) as (_ & _ & _ & _ & Hpw).
  rewrite Forall_forall in Hpw. destruct (Hpw d Hin) as [p Hp].
  split; [now exists p|]. rewrite Hp. apply hash_password_length.
Qed.

Lemma effect_collection_grows E wd w w' :
  interaction_effect E wd w w' -> exists more, collection w' = collection w ++ more.
Proof.
  intros [_ H _ _ | _ _ H _ _ | _ _ p u n handle view own rs cp resp H _ _]; rewrite H.
  - exists []. now rewrite app_nil_r.
  - exists []. now rewrite app_nil_r.
  - eexists. reflexivity.
Qed.

(** X15: both collections only grow, at the end: whatever interactions
    take place, the Messages and the User documents stored before are
    still there afterwards, unchanged and in the same order. *)
Theorem stores_only_grow (E : Env) (s s' : System) :
  evolves E s s' ->
  exists new_messages new_users,
    chat_history s' = chat_history s ++ new_messages /\
    users s' = users s ++ new_users.
Proof.
  induction 1 as [|s' sid wd _ (m & us & Hm & Hu)].
  - exists [], []. now rewrite !app_nil_r.
  - destruct (interaction_effects E wd (load sid s')) as [_ Heff].
    destruct (effect_collection_grows _ _ _ _ Heff) as [more Hmore].
    exists (m ++ more). eexists. split.
    + unfold step, save. simpl. unfold run_in. rewrite Hmore. simpl.
      now rewrite Hm, app_assoc.
    + rewrite step_users, Hu, <- app_assoc. reflexivity.
Qed.

(** ** Further properties of the retrieval query *)

(** X16: the retrieval returns exactly the smaller of five and the
    number of stored Messages of the user that match the query. *)
Theorem retrieve_returns_five_or_all (E : Env) (w : World) (q : string) :
  env_ok E ->
  exists texts,
    retrieve_relevant_messages E q w = (Returned texts, w) /\
    List.length texts
    = Nat.min 5 (List.length (candidates E (username (session_state w)) q (collection w))).
Proof.
  intros Hok. eexists. split; [destruct w; reflexivity|].
  rewrite length_map. unfold relevant_documents. rewrite length_firstn.
  now rewrite (Permutation_length (arranged_perm E _ Hok)).
Qed.

Lemma strongly_sorted_app_inv {A} (R : A -> A -> Prop) (l1 l2 : list A) (x y : A) :
  StronglySorted R (l1 ++ l2) -> In x l1 -> In y l2 -> R x y.
Proof.
  induction l1 as [|a l1 IH]; simpl; intros Hs Hx Hy; [contradiction|].
  inversion Hs as [|? ? Hs' Hall]; subst. destruct Hx as [->|Hx].
  - rewrite Forall_forall in Hall. apply Hall, in_or_app. now right.
  - now apply IH.
Qed.

(** X17: the limit keeps the newest matches: a matching Message of the
    user that is not among the retrieved documents is not newer than any
    of the retrieved ones. *)
Theorem retrieve_keeps_the_newest
  (E : Env) (u : option string) (q : string) (coll : list ChatDoc.t)
  (dropped kept : ChatDoc.t) :
  env_ok E ->
  In dropped (candidates E u q coll) ->
  ~ In dropped (relevant_documents E u q coll) ->
  In kept (relevant_documents E u q coll) ->
  ChatDoc.timestamp dropped <= ChatDoc.timestamp kept.
Proof.
  intros Hok Hcand Hnot Hkept. unfold relevant_documents in *.
  set (arranged := sort_timestamp descending (natural_order E (candidates E u q coll))) in *.
  assert (Hin : In dropped arranged)
    by (eapply Permutation_in; [apply Permutation_sym, arranged_perm, Hok | exact Hcand]).
  rewrite <- (firstn_skipn 5 arranged) in Hin. apply in_app_or in Hin.
  destruct Hin as [Hin|Hin]; [contradiction|].
  apply (strongly_sorted_app_inv newer_or_equal (firstn 5 arranged) (skipn 5 arranged));
    auto.
  rewrite firstn_skipn. apply sort_descending_sorted.
Qed.


(** ** The sidebar, the roles and the digest *)

Lemma insert_ascending_sorted (x : ChatDoc.t) (l : list ChatDoc.t) :
  StronglySorted older_or_equal l ->
  StronglySorted older_or_equal (insert_sorted ascending x l).
Proof.
  induction 1 as [|y l Hl IH Hy]; simpl.
  - repeat constructor.
  - unfold ascending at 1.
    destruct (Z.leb_spec (ChatDoc.timestamp x) (ChatDoc.timestamp y)) as [Hle|Hgt].
    + constructor; [constructor; assumption|].
      constructor; [exact Hle|].
      rewrite Forall_forall in Hy |- *. intros z Hz.
      specialize (Hy z Hz). unfold older_or_equal in *. lia.
    + constructor; [exact IH|].
      rewrite Forall_forall in Hy |- *. intros z Hz.
      apply (Permutation_in _ (insert_sorted_perm ascending x l)) in Hz.
      destruct Hz as [<-|Hz]; [unfold older_or_equal; lia | apply Hy, Hz].
Qed.

Lemma sort_ascending_sorted (l : list ChatDoc.t) :
  StronglySorted older_or_equal (sort_timestamp ascending l).
Proof.
  induction l as [|x l IH]; simpl; [constructor | apply insert_ascending_sorted, IH].
Qed.

(** X19: the sidebar history lists every stored Message of the session's
    user exactly once, none of any other user, oldest first, below the
    title "Chat History"; it changes nothing but the screen. *)
Theorem sidebar_history_complete_and_ordered (E : Env) (w : World) :
  env_ok E ->
  exists docs,
    chat_history_sidebar E w
    = (Returned tt,
       add_screen w (sidebar_title "Chat History" :: map history_entry docs)) /\
    Permutation docs (filter (of_user (username (session_state w))) (collection w)) /\
    StronglySorted older_or_equal docs.
Proof.
  intros Hok.
  exists (sort_timestamp ascending
            (natural_order E (filter (of_user (username (session_state w))) (collection w)))).
  split; [|split].
  - now apply chat_history_sidebar_lists_store.
  - eapply perm_trans; [apply sort_timestamp_perm | apply Hok].
  - apply sort_ascending_sorted.
Qed.

(** X20: the role "model" is shown as "assistant" and every other role
    as it is, so the role shown is never "model" and translating twice
    changes nothing more; and the translation changes no role that the
    script stored: in every reachable state the sidebar shows each stored
    Message under its stored role. *)
Theorem translated_role_is_never_model (user_role : string) :
  translate_role_for_streamlit "model" = "assistant" /\
  (user_role <> "model" -> translate_role_for_streamlit user_role = user_role) /\
  translate_role_for_streamlit user_role <> "model" /\
  translate_role_for_streamlit (translate_role_for_streamlit user_role)
  = translate_role_for_streamlit user_role /\
  (forall (E : Env) (s : System) (m : ChatDoc.t),
      reachable E s ->
      In m (chat_history s) ->
      history_entry m
      = sidebar_expander (ChatDoc.timestamp m) (ChatDoc.role m) (ChatDoc.text m)).
Proof.
  split; [reflexivity|]. split; [|split; [|split]].
  - intros Hne. unfold translate_role_for_streamlit.
    apply String.eqb_neq in Hne. now rewrite Hne.
  - unfold translate_role_for_streamlit.
    destruct (String.eqb_spec user_role "model") as [->|Hne]; [discriminate | exact Hne].
  - unfold translate_role_for_streamlit.
    destruct (String.eqb_spec user_role "model") as [->|Hne]; [reflexivity|].
    apply String.eqb_neq in Hne. now rewrite Hne.
  - intros E s m Hreach Hin.
    destruct (reachable_consistent E s Hreach) as (_ & Hattr & _).
    rewrite Forall_forall in Hattr. destruct (Hattr m Hin) as ([Hrole|Hrole] & _);
      unfold history_entry; rewrite Hrole; reflexivity.
Qed.

(** X21: [hash_password] returns 64 characters, each one of
    0123456789abcdef, whatever the password (the empty one included). *)
Theorem hash_password_is_lowercase_hex (password : string) :
  String.length (hash_password password) = 64%nat /\
  Forall is_hex_digit (list_ascii_of_string (hash_password password)).
Proof.
  split; [reflexivity|].
  unfold hash_password, SHA256.hexdigest, SHA256.hex_of_hash, SHA256.hex8.
  cbn [list_ascii_of_string].
  repeat (constructor; [apply nibble_is_hex|]). constructor.
Qed.

(** ** What a logged-in run renders *)

Lemma script_logged_in_quiet_screen (E : Env) wd coll us u cs ms n scr :
  env_ok E ->
  button_Logout wd = false ->
  user_prompt wd = "" ->
  script E wd (mkWorld coll us (mkSession (Some true) u cs ms) n scr)
  = (Returned tt,
     mkWorld coll us
       (mkSession (Some true) u (Some (or_default (mkChat []) cs))
          (Some (or_default [] ms))) n
       (scr ++ [sidebar_write ("Logged in as " ++ str_of_username u)%string]
            ++ (sidebar_title "Chat History" :: history_of E u coll)
            ++ [page_title "Zephyr - ChatBot"]
            ++ flat_map rendered_turn (or_default [] ms))).
Proof.
  intros Hok Hlo Hp. unfold script.
  rewrite (bind_returned _ _ _ _ _ (login_interface_logged_in _ _ _ _ _ _ _ _ Hlo)).
  rewrite (bind_returned _ _ _ _ _ (init_chat_run _ _ _ _ _ _ _ _)).
  cbv beta. unfold chat_page.
  match goal with |- bind (attr "logged_in" logged_in) ?k ?w0 = _ =>
    assert (Hli : attr "logged_in" logged_in w0 = (Returned true, w0)) by reflexivity;
    rewrite (bind_returned _ _ _ _ _ Hli); cbv iota;
    rewrite (bind_returned _ _ _ _ _ (chat_history_sidebar_lists_store E w0 Hok))
  end.
  rewrite Hp. unfold add_screen at 1. simpl.
  unfold bind at 1. unfold emit at 1. simpl.
  rewrite (bind_returned _ _ _ _ _ (display_messages_run _ _ _ _ _ _ _ _)).
  simpl. unfold ret. do 2 f_equal.
  rewrite <- ?app_assoc. simpl. rewrite <- ?app_assoc. reflexivity.
Qed.

(** X22: what a logged-in run without prompt renders is determined by
    the store and the view: the line "Logged in as" with the username,
    the sidebar history queried from the store, the title, then the
    entries of the view in order, each as a "You" bubble when its role is
    "user" and as an "Assistant" bubble otherwise (the system entries
    included), followed by a "Retrieved Context" bubble when it carries a
    non-empty retrieved list. *)
Theorem logged_in_page_shows_store_and_view (E : Env) (wd : Widgets) (w : World) :
  env_ok E ->
  logged_in (session_state w) = Some true ->
  button_Logout wd = false ->
  user_prompt wd = "" ->
  let u := username (session_state w) in
  screen (snd (interaction E wd w))
  = [sidebar_write ("Logged in as " ++ str_of_username u)%string]
    ++ (sidebar_title "Chat History" :: history_of E u (collection w))
    ++ [page_title "Zephyr - ChatBot"]
    ++ flat_map rendered_turn (or_default [] (messages (session_state w))).
Proof.
  destruct w as [coll us [li u cs ms] n scr]. simpl.
  intros Hok -> Hlo Hp. unfold interaction, clear_screen. simpl.
  now rewrite (script_logged_in_quiet_screen E wd coll us u cs ms n [] Hok Hlo Hp).
Qed.

(** X23: after a submit the page shows the sidebar history of the store
    with the two new Messages in it, the earlier entries of the view,
    and then the submitted text as a "You" bubble, the augmented prompt
    as an "Assistant" bubble, the retrieved texts as a "Retrieved
    Context" bubble when there are any, and the reply (or the error text)
    as an "Assistant" bubble. *)
Theorem page_after_submit (E : Env) (wd : Widgets) (w : World) :
  env_ok E ->
  logged_in (session_state w) = Some true ->
  button_Logout wd = false ->
  user_prompt wd <> "" ->
  let t := user_prompt wd in
  let u := username (session_state w) in
  let handle := or_default (mkChat []) (chat_session (session_state w)) in
  let stored := collection w ++ [ChatDoc.mk "user" t (bson_date (clock E (clock_reads w))) u] in
  let rs := map ChatDoc.text (relevant_documents E u t stored) in
  let prompt := (String.concat " " rs ++ " " ++ t)%string in
  let reply := response_of (model_reply E (sent handle) prompt) in
  let w' := snd (interaction E wd w) in
  screen w'
  = [sidebar_write ("Logged in as " ++ str_of_username u)%string]
    ++ (sidebar_title "Chat History" :: history_of E u (collection w'))
    ++ [page_title "Zephyr - ChatBot"]
    ++ flat_map rendered_turn (or_default [] (messages (session_state w)))
    ++ [bubble_you t; bubble_assistant prompt]
    ++ match rs with [] => [] | _ :: _ => [bubble_retrieved rs] end
    ++ [bubble_assistant reply].
Proof.
  destruct w as [coll us [li u cs ms] n scr]. simpl.
  intros Hok -> Hlo Hp. unfold interaction, clear_screen.
  cbn [collection user_collection session_state clock_reads].
  destruct (script_submit E wd coll us u cs ms n [] Hlo Hp) as [scr1 H1].
  cbv zeta in H1. rewrite H1.
  cbn [collection user_collection session_state clock_reads].
  rewrite (script_logged_in_quiet_screen E idle _ _ _ _ _ _ [] Hok eq_refl eq_refl).
  cbn [snd screen collection or_default app].
  do 3 f_equal. rewrite !flat_map_app. simpl.
  rewrite <- !app_assoc. f_equal.
  destruct (map ChatDoc.text _); reflexivity.
Qed.

(** ** The further properties at concrete inputs *)

Lemma bson_date_ticking (n : nat) : bson_date (ticking n) = 1000 * Z.of_nat n.
Proof.
  unfold bson_date, ticking. f_equal.
  symmetry. apply (Z.div_unique _ _ _ 250); lia.
Qed.

Lemma ticking_increases : strictly_increasing (fun i => bson_date (ticking i)).
Proof.
  unfold strictly_increasing. intros i j Hij. rewrite !bson_date_ticking. lia.
Qed.

Lemma bob_asked_reachable : reachable env_echo bob_asked.
Proof. apply evolves_step, evolves_step, evolves_step, evolves_here. Qed.


Lemma translated_role_is_never_model_witness :
  history_entry (ChatDoc.mk "assistant" "hello hello" 1000 (Some "bob"))
  = sidebar_expander 1000 "assistant" "hello hello".
Proof.
  destruct (translated_role_is_never_model "assistant") as (_ & _ & _ & _ & Hshown).
  apply (Hshown env_echo bob_asked).
  - apply evolves_step, evolves_step, evolves_step, evolves_here.
  - vm_compute. right. left. reflexivity.
Defined.

(** With two readings 200 microseconds apart, the prompt and its reply
    are stored under one timestamp. *)
Example quick_reply_shares_the_timestamp :
  map ChatDoc.timestamp
      (collection (snd (interaction env_quick (ask "cats now") (alice_world []))))
  = [2000; 2000].
Proof. vm_compute. reflexivity. Qed.

Lemma empty_prompt_is_ignored_witness :
  collection (snd (interaction env_echo idle (alice_world alice_docs))) = alice_docs.
Proof.
  apply (empty_prompt_is_ignored env_echo idle (alice_world alice_docs));
    reflexivity.
Defined.

(** A prompt typed into a session that is not logged in. *)
Lemma logged_out_run_stores_nothing_witness :
  collection (snd (interaction env_echo (ask "hello") (load 0 bob_registered)))
  = collection (load 0 bob_registered).
Proof.
  apply (logged_out_run_stores_nothing env_echo (ask "hello") (load 0 bob_registered)).
  - vm_compute. discriminate.
  - right. left. reflexivity.
Defined.

Lemma failed_login_is_rejected_witness :
  screen (snd (interaction env_echo (press_Login "bob" "wrong") (load 0 bob_registered)))
  = [sidebar_title "User Login";
     sidebar_error "Invalid username or password";
     page_warning "Please log in to use the chat."].
Proof.
  apply (failed_login_is_rejected env_echo (press_Login "bob" "wrong")
           (load 0 bob_registered)).
  - vm_compute. discriminate.
  - reflexivity.
  - reflexivity.
  - vm_compute. reflexivity.
Defined.

Lemma login_requires_matching_digest_witness :
  exists d, In d (user_collection (load 0 bob_registered)) /\
            UserDoc.username d = "bob" /\
            UserDoc.password d = hash_password "pw1".
Proof.
  apply (login_requires_matching_digest env_echo (press_Login "bob" "pw1")
           (load 0 bob_registered)).
  - vm_compute. discriminate.
  - vm_compute. reflexivity.
Defined.

Lemma logout_shows_login_page_witness :
  screen (snd (interaction env_echo press_Logout (alice_world alice_docs)))
  = [sidebar_title "User Login"; page_warning "Please log in to use the chat."].
Proof.
  apply (logout_shows_login_page env_echo press_Logout (alice_world alice_docs));
    reflexivity.
Defined.

(** bob, registered on connection 0, logs in on connection 2 after his
    first conversation. *)
Lemma registered_user_can_log_in_witness :
  logged_in (sessions (step env_echo 2 (press_Login "bob" "pw1") bob_logged_out) 2)
  = Some true /\
  username (sessions (step env_echo 2 (press_Login "bob" "pw1") bob_logged_out) 2)
  = Some "bob".
Proof.
  apply (registered_user_can_log_in env_echo initial_system bob_logged_out
           0%nat 2%nat (press_Register "bob" "pw1") (press_Login "bob" "pw1")).
  - vm_compute. discriminate.
  - reflexivity.
  - reflexivity.
  - reflexivity.
  - apply evolves_step, evolves_step, evolves_step, evolves_here.
  - vm_compute. discriminate.
  - reflexivity.
  - reflexivity.
  - reflexivity.
  - reflexivity.
Defined.

Lemma sessions_agree_with_users_witness :
  exists u d, username (sessions bob_asked 0) = Some u /\
              In d (users bob_asked) /\ UserDoc.username d = u.
Proof.
  apply (sessions_agree_with_users env_echo bob_asked 0).
  - apply evolves_step, evolves_step, evolves_step, evolves_here.
  - vm_compute. reflexivity.
Defined.

Lemma stored_messages_are_attributed_witness :
  exists u d, Some "bob" = Some u /\ In d (users bob_asked) /\ UserDoc.username d = u.
Proof.
  apply (stored_messages_are_attributed env_echo bob_asked
           (ChatDoc.mk "user" "hello" 0 (Some "bob"))).
  - apply evolves_step, evolves_step, evolves_step, evolves_here.
  - vm_compute. left. reflexivity.
Defined.


Lemma store_order_is_chronological_witness :
  StronglySorted (fun a b => ChatDoc.timestamp a < ChatDoc.timestamp b)
                 (chat_history bob_asked).
Proof.
  apply (store_order_is_chronological env_echo bob_asked).
  - apply evolves_step, evolves_step, evolves_step, evolves_here.
  - intros i j Hij. simpl. rewrite !bson_date_ticking. lia.
Defined.



Lemma only_digests_are_stored_witness :
  String.length (hash_password "pw1") = 64%nat.
Proof.
  apply (only_digests_are_stored env_echo bob_asked
           (UserDoc.mk "bob" (hash_password "pw1"))).
  - apply evolves_step, evolves_step, evolves_step, evolves_here.
  - vm_compute. left. reflexivity.
Defined.

Lemma stores_only_grow_witness :
  exists new_messages new_users,
    chat_history bob_asked = chat_history bob_registered ++ new_messages /\
    users bob_asked = users bob_registered ++ new_users.
Proof.
  apply (stores_only_grow env_echo bob_registered bob_asked).
  apply evolves_step, evolves_step, evolves_here.
Defined.

Lemma retrieve_returns_five_or_all_witness :
  exists texts,
    retrieve_relevant_messages env_echo "cats" (alice_world many_cats)
    = (Returned texts, alice_world many_cats) /\
    List.length texts
    = Nat.min 5 (List.length (candidates env_echo (Some "alice") "cats" many_cats)).
Proof.
  apply (retrieve_returns_five_or_all env_echo (alice_world many_cats) "cats").
  intros l. apply Permutation_refl.
Defined.

(** Of the seven matches the two oldest are dropped. *)
Lemma retrieve_keeps_the_newest_witness :
  ChatDoc.timestamp (cat_doc 2) <= ChatDoc.timestamp (cat_doc 3).
Proof.
  apply (retrieve_keeps_the_newest env_echo (Some "alice") "cats" many_cats
           (cat_doc 2) (cat_doc 3)).
  - intros l. apply Permutation_refl.
  - vm_compute. tauto.
  - vm_compute. intros [H|[H|[H|[H|[H|[]]]]]]; discriminate H.
  - vm_compute. tauto.
Defined.


Lemma sidebar_history_complete_and_ordered_witness :
  exists docs,
    chat_history_sidebar env_echo (alice_world alice_docs)
    = (Returned tt,
       add_screen (alice_world alice_docs)
         (sidebar_title "Chat History" :: map history_entry docs)) /\
    Permutation docs (filter (of_user (Some "alice")) alice_docs) /\
    StronglySorted older_or_equal docs.
Proof.
  apply (sidebar_history_complete_and_ordered env_echo (alice_world alice_docs)).
  intros l. apply Permutation_refl.
Defined.

Lemma logged_in_page_shows_store_and_view_witness :
  screen (snd (interaction env_echo idle (load 0 bob_asked)))
  = [sidebar_write "Logged in as bob"]
    ++ (sidebar_title "Chat History"
        :: history_of env_echo (Some "bob") (collection (load 0 bob_asked)))
    ++ [page_title "Zephyr - ChatBot"]
    ++ flat_map rendered_turn (or_default [] (messages (session_state (load 0 bob_asked)))).
Proof.
  rewrite (logged_in_page_shows_store_and_view env_echo idle (load 0 bob_asked)).
  - vm_compute. reflexivity.
  - intros l. apply Permutation_refl.
  - vm_compute. reflexivity.
  - reflexivity.
  - reflexivity.
Defined.

Lemma page_after_submit_witness :
  exists before,
    screen (snd (interaction env_fail (ask "cats now") (alice_world alice_docs)))
    = before
      ++ [bubble_you "cats now";
          bubble_assistant "cats now cats rule cats are great cats now";
          bubble_retrieved ["cats now"; "cats rule"; "cats are great"];
          bubble_assistant "Error: 503 service unavailable"].
Proof.
  exists [sidebar_write "Logged in as alice"; sidebar_title "Chat History";
          sidebar_expander 10 "user" "cats are great";
          sidebar_expander 20 "user" "dogs are great";
          sidebar_expander 30 "user" "cats rule";
          sidebar_expander 5000 "user" "cats now";
          sidebar_expander 6000 "assistant" "Error: 503 service unavailable";
          page_title "Zephyr - ChatBot"].
  rewrite (page_after_submit env_fail (ask "cats now") (alice_world alice_docs)).
  - vm_compute. reflexivity.
  - intros l. apply Permutation_refl.
  - reflexivity.
  - reflexivity.
  - discriminate.
Defined.
